(** * Sale reconciliation: the route handlers of [app/api/sales/route.ts]

    A shallow embedding of the [POST], [PATCH] and [DELETE] handlers of the
    sales route, of the fragment of JavaScript they are written in, and of
    the two tables they read and write.

    Conventions of the model.
    - A JavaScript number is an exact rational, or one of [Infinity],
      [-Infinity], [NaN].  Rounding to binary64 and the sign of zero are
      outside the model of the handlers; where a statement turns on
      rounding, the expression is run on binary64 numbers (section
      Binary64).
    - A row is a record of JavaScript values; a table is a finite map from
      row identifiers to rows.  A write stores the values the handler hands
      to the client library.  Column types and constraints of the database
      service are outside the model, and its requests do not fail, apart
      from the insert of a sale that names no item and from the delete of
      [DELETE_with].
    - Each handler is a function from the request and the database to the
      response and the database after the request. *)

From Stdlib Require Import QArith Qcanon SpecFloat.
From stdpp Require Import base strings pretty gmap.

Local Open Scope string_scope.

(** ** JavaScript numbers *)

Inductive num : Type :=
  | Fin (q : Qc)
  | PInf
  | NInf
  | NaN.

Definition qz (z : Z) : Qc := Q2Qc (inject_Z z).

Definition nzero : num := Fin 0%Qc.
Definition nhundred : num := Fin (qz 100).

Arguments qz : simpl never.

(** Sign of a number, [None] for [NaN]. *)
Definition nsign (n : num) : option comparison :=
  match n with
  | Fin q => Some (q ?= 0)%Qc
  | PInf => Some Gt
  | NInf => Some Lt
  | NaN => None
  end.

Definition sign_mul (c d : comparison) : comparison :=
  match c, d with
  | Eq, _ | _, Eq => Eq
  | Gt, Gt | Lt, Lt => Gt
  | _, _ => Lt
  end.

(** The infinity of a given sign; a zero sign stands for an undefined
    result. *)
Definition inf_of (c : comparison) : num :=
  match c with Gt => PInf | Lt => NInf | Eq => NaN end.

Definition nneg (n : num) : num :=
  match n with
  | Fin q => Fin (- q)%Qc
  | PInf => NInf
  | NInf => PInf
  | NaN => NaN
  end.

Definition nadd (a b : num) : num :=
  match a, b with
  | NaN, _ | _, NaN => NaN
  | Fin x, Fin y => Fin (x + y)%Qc
  | PInf, NInf | NInf, PInf => NaN
  | PInf, _ | _, PInf => PInf
  | NInf, _ | _, NInf => NInf
  end.

Definition nsub (a b : num) : num := nadd a (nneg b).

Definition nmul (a b : num) : num :=
  match a, b with
  | Fin x, Fin y => Fin (x * y)%Qc
  | _, _ =>
      match nsign a, nsign b with
      | Some c, Some d => inf_of (sign_mul c d)
      | _, _ => NaN
      end
  end.

Definition qc_is_zero (q : Qc) : bool :=
  match (q ?= 0)%Qc with Eq => true | _ => false end.

Definition ndiv (a b : num) : num :=
  match a, b with
  | NaN, _ | _, NaN => NaN
  | Fin x, Fin y =>
      if qc_is_zero y then inf_of (x ?= 0)%Qc else Fin (x / y)%Qc
  | Fin _, _ => Fin 0%Qc
  | _, Fin y =>
      match nsign a with
      | Some c => inf_of (sign_mul c (if qc_is_zero y then Gt else (y ?= 0)%Qc))
      | None => NaN
      end
  | _, _ => NaN
  end.

(** Order of two numbers, [None] when one of them is [NaN]. *)
Definition ncompare (a b : num) : option comparison :=
  match a, b with
  | NaN, _ | _, NaN => None
  | Fin x, Fin y => Some (x ?= y)%Qc
  | PInf, PInf | NInf, NInf => Some Eq
  | PInf, _ | _, NInf => Some Gt
  | NInf, _ | _, PInf => Some Lt
  end.

(** [a < b], [a > b], [a <= b] and [a !== b] on numbers. *)
Definition nlt (a b : num) : bool :=
  match ncompare a b with Some Lt => true | _ => false end.
Definition ngt (a b : num) : bool := nlt b a.
Definition nle (a b : num) : bool :=
  match ncompare a b with Some Lt | Some Eq => true | _ => false end.
Definition nne (a b : num) : bool :=
  match ncompare a b with Some Eq => false | _ => true end.

(** ** JavaScript values

    The values a parsed JSON body, a query parameter or a row can hold.
    An array or an object is carried by the string its conversion to a
    primitive yields: beyond [typeof] and truthiness, that string is all
    this code observes of it. *)

Inductive value : Type :=
  | VUndefined
  | VNull
  | VBool (b : bool)
  | VNum (n : num)
  | VStr (s : string)
  | VObj (prim : string).

Inductive jstype : Type :=
  | TUndefined | TObject | TBoolean | TNumber | TString.

Definition typeof (v : value) : jstype :=
  match v with
  | VUndefined => TUndefined
  | VNull => TObject
  | VBool _ => TBoolean
  | VNum _ => TNumber
  | VStr _ => TString
  | VObj _ => TObject
  end.

Definition is_number (v : value) : bool :=
  match typeof v with TNumber => true | _ => false end.

Definition string_is_empty (s : string) : bool :=
  match s with EmptyString => true | _ => false end.

(** Truthiness: what [!v], [v || w] and [if (v)] test. *)
Definition truthy (v : value) : bool :=
  match v with
  | VUndefined | VNull => false
  | VBool b => b
  | VNum (Fin q) => negb (qc_is_zero q)
  | VNum NaN => false
  | VNum _ => true
  | VStr s => negb (string_is_empty s)
  | VObj _ => true
  end.

(** [a || b] *)
Definition js_or (a b : value) : value := if truthy a then a else b.

(** ** Rows, tables and requests *)

(** A row of [items] (the columns of [Database] in
    [lib/supabase/client.ts] that the handlers touch). *)
Module Item.
Record row : Type := {
  user_id : string;
  purchase_price : value;
  quantity_purchased : value;
  quantity_on_hand : value;
  quantity_sold : value
}.
End Item.

(** A row of [sales]. *)
Module Sale.
Record row : Type := {
  user_id : string;
  item_id : value;
  platform : value;
  sale_price : value;
  sale_date : value;
  quantity_sold : value;
  platform_fees : value;
  shipping_cost : value;
  other_fees : value;
  notes : value;
  is_synced_from_api : value;
  gross_profit : value;
  net_profit : value;
  profit_margin : value
}.
End Sale.

(** The fields the handlers destructure from the JSON body; an absent key
    is [VUndefined]. *)
Module Body.
Record t : Type := {
  id : value;
  item_id : value;
  platform : value;
  sale_price : value;
  sale_date : value;
  quantity_sold : value;
  platform_fees : value;
  shipping_cost : value;
  other_fees : value;
  notes : value
}.
End Body.

Record db : Type := {
  items : gmap string Item.row;
  sales : gmap string Sale.row
}.

(** What [NextResponse.json] is given. *)
Inductive payload : Type :=
  | JError (error : string)
  | JMessage (message : string)
  | JSale (id : string) (sale : Sale.row).

Record response : Type := {
  status : nat;
  json : payload
}.

Definition respond (code : nat) (p : payload) : response :=
  {| status := code; json := p |}.

(** ** A host for the examples

    Decimal digits of the unsigned integers, read and printed.  The
    examples below run the handlers with it; they hold no other numeric
    string and print no other number. *)

Fixpoint digits_value (acc : N) (s : string) : option N :=
  match s with
  | EmptyString => Some acc
  | String c r =>
      let n := Ascii.N_of_ascii c in
      if (48 <=? n)%N && (n <=? 57)%N
      then digits_value (acc * 10 + (n - 48))%N r
      else None
  end.

Definition example_str_to_num (s : string) : num :=
  match digits_value 0%N s with
  | Some n => Fin (qz (Z.of_N n))
  | None => NaN
  end.

Definition example_num_to_str (n : num) : string :=
  match n with
  | Fin q =>
      match Qden (this q) with
      | xH => pretty (Qnum (this q))
      | _ => ""
      end
  | PInf => "Infinity"
  | NInf => "-Infinity"
  | NaN => "NaN"
  end.

(** ** The scenario of the specification

    Section 8: an item bought at 10 with five units on hand, and the sale
    of two units at 25 with fees 3 and 2. *)

Definition example_item : Item.row :=
  {| Item.user_id := "u1";
     Item.purchase_price := VNum (Fin (qz 10));
     Item.quantity_purchased := VNum (Fin (qz 5));
     Item.quantity_on_hand := VNum (Fin (qz 5));
     Item.quantity_sold := VNum (Fin (qz 0)) |}.

Definition example_db : db :=
  {| items := {[ "i1" := example_item ]}; sales := ∅ |}.

Definition example_body : Body.t :=
  {| Body.id := VUndefined;
     Body.item_id := VStr "i1";
     Body.platform := VStr "ebay";
     Body.sale_price := VNum (Fin (qz 25));
     Body.sale_date := VStr "2024-03-01";
     Body.quantity_sold := VNum (Fin (qz 2));
     Body.platform_fees := VNum (Fin (qz 3));
     Body.shipping_cost := VNum (Fin (qz 2));
     Body.other_fees := VUndefined;
     Body.notes := VUndefined |}.

(** The same request with another sale price and quantity. *)
Definition example_body_with (sale_price quantity_sold : value) : Body.t :=
  {| Body.id := VUndefined;
     Body.item_id := VStr "i1";
     Body.platform := VStr "ebay";
     Body.sale_price := sale_price;
     Body.sale_date := VStr "2024-03-01";
     Body.quantity_sold := quantity_sold;
     Body.platform_fees := VNum (Fin (qz 3));
     Body.shipping_cost := VNum (Fin (qz 2));
     Body.other_fees := VUndefined;
     Body.notes := VUndefined |}.

(** The database once that sale is recorded as ["s1"]. *)
Definition example_sale : Sale.row :=
  {| Sale.user_id := "u1";
     Sale.item_id := VStr "i1";
     Sale.platform := VStr "ebay";
     Sale.sale_price := VNum (Fin (qz 25));
     Sale.sale_date := VStr "2024-03-01";
     Sale.quantity_sold := VNum (Fin (qz 2));
     Sale.platform_fees := VNum (Fin (qz 3));
     Sale.shipping_cost := VNum (Fin (qz 2));
     Sale.other_fees := VNum (Fin (qz 0));
     Sale.notes := VNull;
     Sale.is_synced_from_api := VBool false;
     Sale.gross_profit := VNum (Fin (qz 30));
     Sale.net_profit := VNum (Fin (qz 25));
     Sale.profit_margin := VNum (Fin (qz 50)) |}.

Definition example_item_sold : Item.row :=
  {| Item.user_id := "u1";
     Item.purchase_price := VNum (Fin (qz 10));
     Item.quantity_purchased := VNum (Fin (qz 5));
     Item.quantity_on_hand := VNum (Fin (qz 3));
     Item.quantity_sold := VNum (Fin (qz 2)) |}.

Definition example_db_sold : db :=
  {| items := {[ "i1" := example_item_sold ]};
     sales := {[ "s1" := example_sale ]} |}.

(** A replacement of sale ["s1"] with the given sale price and quantity. *)
Definition example_update (sale_price quantity_sold : value) : Body.t :=
  {| Body.id := VStr "s1";
     Body.item_id := VStr "i1";
     Body.platform := VStr "ebay";
     Body.sale_price := sale_price;
     Body.sale_date := VStr "2024-03-01";
     Body.quantity_sold := quantity_sold;
     Body.platform_fees := VNum (Fin (qz 3));
     Body.shipping_cost := VNum (Fin (qz 2));
     Body.other_fees := VUndefined;
     Body.notes := VUndefined |}.

(** A row of [wishlists]. *)
Module Wish.
Record row : Type := {
  customer_id : value;
  product_id : value
}.
End Wish.

(** What the wishlist handlers give [NextResponse.json]. *)
Inductive wish_payload : Type :=
  | WError (error : string)
  | WInWishlist (inWishlist : bool)
  | WItems (wishlistItems : gmap string Wish.row)
  | WMessage (message : string)
  | WMessageId (message : string) (id : string).

(** [.single()]: the row of a result that holds exactly one row. *)
Definition single {A : Type} (m : gmap string A) : option (string * A) :=
  match map_to_list m with
  | [kr] => Some kr
  | _ => None
  end.


(** The fields [POST] of [app/api/shopping-list/purchase/route.ts]
    destructures from the JSON body. *)
Module Purchase.
Record t : Type := {
  shopping_list_id : value;
  actual_price : value;
  actual_location : value;
  quantity : value;
  purchase_date : value
}.
End Purchase.

(** What that handler gives [NextResponse.json]. *)
Inductive purchase_payload : Type :=
  | PError (error : string)
  | PPurchased (message : string) (new_item_id : value).

(** ** Binary64

    The numbers of the language are IEEE 754 binary64 numbers.  Where a
    statement turns on their rounding, the arithmetic of the handler is
    run on them: the operations of the standard library's [SpecFloat] at
    precision 53 and exponent bound 1024. *)







(** A replacement of sale ["s1"] that names another item and carries no
    fee. *)
Definition example_update_no_fees (sale_price quantity_sold : value)
  : Body.t :=
  {| Body.id := VStr "s1";
     Body.item_id := VStr "i2";
     Body.platform := VStr "ebay";
     Body.sale_price := sale_price;
     Body.sale_date := VStr "2024-03-01";
     Body.quantity_sold := quantity_sold;
     Body.platform_fees := VUndefined;
     Body.shipping_cost := VUndefined;
     Body.other_fees := VUndefined;
     Body.notes := VUndefined |}.

(** The database of the scenario with the item row gone. *)
Definition example_db_orphan : db :=
  {| items := ∅; sales := {[ "s1" := example_sale ]} |}.

(** A wishlist with one row, and a purchase of three units at 12. *)
Definition example_wishlist : gmap string Wish.row :=
  {[ "w1" := {| Wish.customer_id := VStr "c1";
                Wish.product_id := VStr "p1" |} ]}.

Definition example_purchase (actual_price : value) : Purchase.t :=
  {| Purchase.shopping_list_id := VStr "l1";
     Purchase.actual_price := actual_price;
     Purchase.actual_location := VStr "market";
     Purchase.quantity := VNum (Fin (qz 3));
     Purchase.purchase_date := VStr "2024-03-02" |}.


(** Closed goals: an order between two amounts, and a run of the model. *)
Ltac qc_order :=
  first [ apply Qclt_alt; vm_compute; reflexivity
        | apply Qcle_alt; vm_compute; discriminate ].

Ltac run := vm_compute; reflexivity.

Section Handlers.

(** The two conversions between strings and numbers that the language
    provides ([StringToNumber] and [Number::toString]). *)
Variable str_to_num : string -> num.
Variable num_to_str : num -> string.

Definition to_number (v : value) : num :=
  match v with
  | VUndefined => NaN
  | VNull => Fin 0%Qc
  | VBool true => Fin 1%Qc
  | VBool false => Fin 0%Qc
  | VNum n => n
  | VStr s => str_to_num s
  | VObj p => str_to_num p
  end.

Definition to_str (v : value) : string :=
  match v with
  | VUndefined => "undefined"
  | VNull => "null"
  | VBool true => "true"
  | VBool false => "false"
  | VNum n => num_to_str n
  | VStr s => s
  | VObj p => p
  end.

Definition is_stringy (v : value) : bool :=
  match v with VStr _ | VObj _ => true | _ => false end.

(** [a + b]: concatenation as soon as one operand is a string once
    converted to a primitive, the sum of the numbers otherwise. *)
Definition js_add (a b : value) : value :=
  if is_stringy a || is_stringy b
  then VStr (String.append (to_str a) (to_str b))
  else VNum (nadd (to_number a) (to_number b)).

(** [a - b] and [a * b] *)
Definition js_sub (a b : value) : num := nsub (to_number a) (to_number b).
Definition js_mul (a b : value) : num := nmul (to_number a) (to_number b).

(** [a < n], [a > n], [a <= n] against a number [n]: the other operand is
    converted to a number. *)
Definition js_lt (a : value) (n : num) : bool := nlt (to_number a) n.
Definition js_gt (a : value) (n : num) : bool := ngt (to_number a) n.
Definition js_le (a : value) (n : num) : bool := nle (to_number a) n.

(** ** Queries *)

(** [.from('items').select(..).eq('id', k).eq('user_id', uid).single()] *)
Definition select_item_of_user (d : db) (k : value) (uid : string)
  : option Item.row :=
  match items d !! to_str k with
  | Some it => if String.eqb (Item.user_id it) uid then Some it else None
  | None => None
  end.

(** [.from('items').select(..).eq('id', k).single()] *)
Definition select_item (d : db) (k : value) : option Item.row :=
  items d !! to_str k.

(** [.from('sales').select(..).eq('id', k).eq('user_id', uid).single()] *)
Definition select_sale_of_user (d : db) (k : string) (uid : string)
  : option Sale.row :=
  match sales d !! k with
  | Some s => if String.eqb (Sale.user_id s) uid then Some s else None
  | None => None
  end.

(** [.from('items').update({quantity_on_hand, quantity_sold}).eq('id', k)] *)
Definition update_item_quantities (d : db) (k : string)
  (on_hand sold : value) : db :=
  match items d !! k with
  | Some it =>
      {| items :=
           <[k := {| Item.user_id := Item.user_id it;
                     Item.purchase_price := Item.purchase_price it;
                     Item.quantity_purchased := Item.quantity_purchased it;
                     Item.quantity_on_hand := on_hand;
                     Item.quantity_sold := sold |}]> (items d);
         sales := sales d |}
  | None => d
  end.

(** [.from('sales').delete().eq('id', k).eq('user_id', uid)] *)
Definition delete_sale_of_user (d : db) (k : string) (uid : string) : db :=
  match select_sale_of_user d k uid with
  | Some _ => {| items := items d; sales := delete k (sales d) |}
  | None => d
  end.

(** Modelled from the spec: the database trigger on [sales] that the
    comment in [POST] relies on ("database trigger will calculate profit
    and update quantities"); it is not part of the route's source.  Written
    from sections 3 and 4.1 of the specification: the profit fields of the
    new sale from the item's purchase price, the margin under the gate
    [sale_price * quantity_sold > 0], and the item's counters moved by the
    quantity sold. *)
Definition sale_insert_trigger (it : Item.row) (s : Sale.row)
  : Sale.row * Item.row :=
  let gross :=
    nmul (js_sub (Sale.sale_price s) (Item.purchase_price it))
         (to_number (Sale.quantity_sold s)) in
  let net :=
    nsub (nsub (nsub gross (to_number (Sale.platform_fees s)))
               (to_number (Sale.shipping_cost s)))
         (to_number (Sale.other_fees s)) in
  let revenue := js_mul (Sale.sale_price s) (Sale.quantity_sold s) in
  let margin :=
    if ngt revenue nzero then nmul (ndiv net revenue) nhundred else nzero in
  ({| Sale.user_id := Sale.user_id s;
      Sale.item_id := Sale.item_id s;
      Sale.platform := Sale.platform s;
      Sale.sale_price := Sale.sale_price s;
      Sale.sale_date := Sale.sale_date s;
      Sale.quantity_sold := Sale.quantity_sold s;
      Sale.platform_fees := Sale.platform_fees s;
      Sale.shipping_cost := Sale.shipping_cost s;
      Sale.other_fees := Sale.other_fees s;
      Sale.notes := Sale.notes s;
      Sale.is_synced_from_api := Sale.is_synced_from_api s;
      Sale.gross_profit := VNum gross;
      Sale.net_profit := VNum net;
      Sale.profit_margin := VNum margin |},
   {| Item.user_id := Item.user_id it;
      Item.purchase_price := Item.purchase_price it;
      Item.quantity_purchased := Item.quantity_purchased it;
      Item.quantity_on_hand :=
        VNum (js_sub (Item.quantity_on_hand it) (Sale.quantity_sold s));
      Item.quantity_sold :=
        VNum (nadd (to_number (Item.quantity_sold it))
                   (to_number (Sale.quantity_sold s))) |}).

(** [.from('sales').insert(row).select(..).single()]: the row is stored
    under the identifier [new_id] the database gives it, after the trigger
    has run; the insert fails when the row names no item. *)
Definition insert_sale (d : db) (new_id : string) (s : Sale.row)
  : option (Sale.row * db) :=
  match items d !! to_str (Sale.item_id s) with
  | Some it =>
      let '(s', it') := sale_insert_trigger it s in
      Some (s', {| items := <[to_str (Sale.item_id s) := it']> (items d);
                   sales := <[new_id := s']> (sales d) |})
  | None => None
  end.

(** ** The handlers *)

(** The three validation steps of [POST]: the response of the first one
    that fails, if any. *)
Definition post_validation (body : Body.t) : option response :=
  if negb (truthy (Body.item_id body)) || negb (truthy (Body.platform body))
     || negb (truthy (Body.sale_price body))
     || negb (truthy (Body.sale_date body))
     || negb (truthy (Body.quantity_sold body))
  then Some (respond 400 (JError "Missing required fields"))
  else if negb (is_number (Body.sale_price body))
          || js_lt (Body.sale_price body) nzero
  then Some (respond 400 (JError "Sale price must be a positive number"))
  else if negb (is_number (Body.quantity_sold body))
          || js_le (Body.quantity_sold body) nzero
  then Some (respond 400 (JError "Quantity must be a positive number"))
  else None.

(** The object [POST] hands to [insert]. *)
Definition post_row (uid : string) (body : Body.t) : Sale.row :=
  {| Sale.user_id := uid;
     Sale.item_id := Body.item_id body;
     Sale.platform := Body.platform body;
     Sale.sale_price := Body.sale_price body;
     Sale.sale_date := Body.sale_date body;
     Sale.quantity_sold := Body.quantity_sold body;
     Sale.platform_fees := js_or (Body.platform_fees body) (VNum nzero);
     Sale.shipping_cost := js_or (Body.shipping_cost body) (VNum nzero);
     Sale.other_fees := js_or (Body.other_fees body) (VNum nzero);
     Sale.notes := js_or (Body.notes body) VNull;
     Sale.is_synced_from_api := VBool false;
     Sale.gross_profit := VUndefined;
     Sale.net_profit := VUndefined;
     Sale.profit_margin := VUndefined |}.

(** [POST]: create a sale.  [user] is the authenticated user, if any;
    [new_id] the identifier the database gives the new row. *)
Definition POST (new_id : string) (user : option string) (body : Body.t)
  (d : db) : response * db :=
  match user with
  | None => (respond 401 (JError "Unauthorized"), d)
  | Some uid =>
    match post_validation body with
    | Some r => (r, d)
    | None =>
      match select_item_of_user d (Body.item_id body) uid with
      | None => (respond 404 (JError "Item not found"), d)
      | Some item =>
        if js_lt (Item.quantity_on_hand item)
                 (to_number (Body.quantity_sold body))
        then (respond 400
                (JError (String.append "Only "
                   (String.append (to_str (Item.quantity_on_hand item))
                      " units available"))), d)
        else
          match insert_sale d new_id (post_row uid body) with
          | None => (respond 500 (JError "Failed to create sale"), d)
          | Some (sale, d') => (respond 201 (JSale new_id sale), d')
          end
      end
    end
  end.

(** The profit fields [PATCH] computes from the item's purchase price and
    the request. *)
Definition patch_gross (purchasePrice : value) (body : Body.t) : num :=
  nsub (js_mul (Body.sale_price body) (Body.quantity_sold body))
       (js_mul purchasePrice (Body.quantity_sold body)).

Definition patch_net (purchasePrice : value) (body : Body.t) : num :=
  nsub (nsub (nsub (patch_gross purchasePrice body)
                   (to_number (js_or (Body.platform_fees body) (VNum nzero))))
             (to_number (js_or (Body.shipping_cost body) (VNum nzero))))
       (to_number (js_or (Body.other_fees body) (VNum nzero))).

Definition patch_margin (purchasePrice : value) (body : Body.t) : num :=
  if js_gt (Body.sale_price body) nzero
  then nmul (ndiv (patch_net purchasePrice body)
                  (js_mul (Body.sale_price body) (Body.quantity_sold body)))
            nhundred
  else nzero.

(** [.from('sales').update({..}).eq('id', k).select(..).single()] with the
    object [PATCH] builds. *)
Definition patch_row (old : Sale.row) (purchasePrice : value)
  (body : Body.t) : Sale.row :=
  {| Sale.user_id := Sale.user_id old;
     Sale.item_id := Sale.item_id old;
     Sale.platform := Body.platform body;
     Sale.sale_price := Body.sale_price body;
     Sale.sale_date := Body.sale_date body;
     Sale.quantity_sold := Body.quantity_sold body;
     Sale.platform_fees := Body.platform_fees body;
     Sale.shipping_cost := Body.shipping_cost body;
     Sale.other_fees := Body.other_fees body;
     Sale.notes := Body.notes body;
     Sale.is_synced_from_api := Sale.is_synced_from_api old;
     Sale.gross_profit := VNum (patch_gross purchasePrice body);
     Sale.net_profit := VNum (patch_net purchasePrice body);
     Sale.profit_margin := VNum (patch_margin purchasePrice body) |}.

(** [PATCH]: update a sale. *)
Definition PATCH (user : option string) (body : Body.t) (d : db)
  : response * db :=
  match user with
  | None => (respond 401 (JError "Unauthorized"), d)
  | Some uid =>
    if negb (truthy (Body.id body))
    then (respond 400 (JError "Sale ID required"), d)
    else
      match select_sale_of_user d (to_str (Body.id body)) uid with
      | None => (respond 404 (JError "Sale not found"), d)
      | Some oldSale =>
        match select_item d (Sale.item_id oldSale) with
        | None => (respond 500 (JError "Internal server error"), d)
        | Some item =>
          let quantityDiff :=
            js_sub (Body.quantity_sold body) (Sale.quantity_sold oldSale) in
          if ngt quantityDiff nzero
             && js_lt (Item.quantity_on_hand item) quantityDiff
          then (respond 400
                  (JError
                     (String.append "Not enough stock. You need "
                     (String.append (num_to_str quantityDiff)
                     (String.append " more, but only have "
                     (String.append (to_str (Item.quantity_on_hand item))
                        "."))))), d)
          else
            let sale := patch_row oldSale (Item.purchase_price item) body in
            let d1 :=
              {| items := items d;
                 sales := <[to_str (Body.id body) := sale]> (sales d) |} in
            let d2 :=
              if nne quantityDiff nzero
              then update_item_quantities d1 (to_str (Sale.item_id oldSale))
                     (VNum (nsub (to_number (Item.quantity_on_hand item))
                                 quantityDiff))
                     (js_add (Item.quantity_sold item) (VNum quantityDiff))
              else d1 in
            (respond 200 (JSale (to_str (Body.id body)) sale), d2)
        end
      end
  end.

(** [DELETE]: delete a sale.  [saleId] is [searchParams.get('id')]. *)
Definition DELETE (user : option string) (saleId : option string) (d : db)
  : response * db :=
  match user with
  | None => (respond 401 (JError "Unauthorized"), d)
  | Some uid =>
    match saleId with
    | None => (respond 400 (JError "Sale ID is required"), d)
    | Some k =>
      if string_is_empty k
      then (respond 400 (JError "Sale ID is required"), d)
      else
        let d1 :=
          match select_sale_of_user d k uid with
          | Some sale =>
            match select_item d (Sale.item_id sale) with
            | Some item =>
                update_item_quantities d (to_str (Sale.item_id sale))
                  (js_add (Item.quantity_on_hand item)
                          (Sale.quantity_sold sale))
                  (VNum (js_sub (Item.quantity_sold item)
                                (Sale.quantity_sold sale)))
            | None => d
            end
          | None => d
          end in
        (respond 200 (JMessage "Sale deleted successfully"),
         delete_sale_of_user d1 k uid)
    end
  end.

(** [DELETE] with the outcome of its last request, the delete of lines
    302-306, made explicit: [deleteError] tells whether that request
    fails.  [DELETE] above is the handler when it does not. *)
Definition DELETE_with (deleteError : bool) (user : option string)
  (saleId : option string) (d : db) : response * db :=
  match user with
  | None => (respond 401 (JError "Unauthorized"), d)
  | Some uid =>
    match saleId with
    | None => (respond 400 (JError "Sale ID is required"), d)
    | Some k =>
      if string_is_empty k
      then (respond 400 (JError "Sale ID is required"), d)
      else
        let d1 :=
          match select_sale_of_user d k uid with
          | Some sale =>
            match select_item d (Sale.item_id sale) with
            | Some item =>
                update_item_quantities d (to_str (Sale.item_id sale))
                  (js_add (Item.quantity_on_hand item)
                          (Sale.quantity_sold sale))
                  (VNum (js_sub (Item.quantity_sold item)
                                (Sale.quantity_sold sale)))
            | None => d
            end
          | None => d
          end in
        if deleteError
        then (respond 500 (JError "Failed to delete sale"), d1)
        else (respond 200 (JMessage "Sale deleted successfully"),
              delete_sale_of_user d1 k uid)
    end
  end.

(** ** The formulas of the specification

    Section 3 of the specification, over exact amounts. *)

Definition spec_gross_profit (sale_price purchase_price quantity_sold : Qc)
  : Qc :=
  ((sale_price - purchase_price) * quantity_sold)%Qc.

(** A fee that is absent counts as zero. *)
Definition fee_or_zero (fee : option Qc) : Qc :=
  match fee with Some f => f | None => 0%Qc end.

Definition spec_net_profit (gross : Qc) (platform_fees shipping_cost
  other_fees : option Qc) : Qc :=
  (gross - fee_or_zero platform_fees - fee_or_zero shipping_cost
   - fee_or_zero other_fees)%Qc.


(** How an optional fee reaches the handler in the JSON body. *)
Definition fee_field (fee : option Qc) : value :=
  match fee with Some f => VNum (Fin f) | None => VUndefined end.



(** ** The wishlist handlers

    The second route of the same source file keeps, for a customer, the
    products wished for, one row of [wishlists] for each.  Its [GET],
    [POST] and [DELETE] are named [wishlist_GET], [wishlist_POST] and
    [wishlist_DELETE] here. *)

(** [.eq('customer_id', c).eq('product_id', p)] on a row. *)
Definition wish_matches (c p : string) (r : Wish.row) : bool :=
  String.eqb (to_str (Wish.customer_id r)) c
  && String.eqb (to_str (Wish.product_id r)) p.

(** [.eq('customer_id', c)] on a row. *)
Definition wish_of_customer (c : string) (r : Wish.row) : bool :=
  String.eqb (to_str (Wish.customer_id r)) c.

(** [.from('wishlists').select(..).eq(..).eq(..)]: the rows that match. *)
Definition select_wishes (t : gmap string Wish.row) (c p : string)
  : gmap string Wish.row :=
  filter (fun kr => wish_matches c p (snd kr) = true) t.

(** [GET]: is a product in the wishlist of a customer, or, without a
    product, the wishlist of the customer.  The order of the rows and the
    product columns joined to them are left out of the answer. *)
Definition wishlist_GET (customerId productId : option string)
  (t : gmap string Wish.row) : nat * wish_payload :=
  match customerId with
  | None => (400, WError "Customer ID required")
  | Some c =>
    if string_is_empty c then (400, WError "Customer ID required")
    else
      match productId with
      | Some p =>
        if string_is_empty p
        then (200, WItems
                     (filter (fun kr => wish_of_customer c (snd kr) = true) t))
        else
          match single (select_wishes t c p) with
          | Some _ => (200, WInWishlist true)
          | None => (200, WInWishlist false)
          end
      | None =>
        (200, WItems
                (filter (fun kr => wish_of_customer c (snd kr) = true) t))
      end
  end.

(** [POST]: add a product to the wishlist of a customer.  [new_id] is the
    identifier the database gives a new row. *)
Definition wishlist_POST (new_id : string) (customerId productId : value)
  (t : gmap string Wish.row) : (nat * wish_payload) * gmap string Wish.row :=
  if negb (truthy customerId) || negb (truthy productId)
  then ((400, WError "Customer ID and Product ID required"), t)
  else
    match single (select_wishes t (to_str customerId) (to_str productId)) with
    | Some existing => ((200, WMessageId "Already in wishlist" (fst existing)), t)
    | None =>
      ((201, WMessageId "Added to wishlist" new_id),
       <[new_id := {| Wish.customer_id := customerId;
                      Wish.product_id := productId |}]> t)
    end.

(** [DELETE]: remove a product from the wishlist of a customer. *)
Definition wishlist_DELETE (customerId productId : option string)
  (t : gmap string Wish.row) : (nat * wish_payload) * gmap string Wish.row :=
  match customerId, productId with
  | Some c, Some p =>
    if string_is_empty c || string_is_empty p
    then ((400, WError "Customer ID and Product ID required"), t)
    else
      ((200, WMessage "Removed from wishlist"),
       filter (fun kr => wish_matches c p (snd kr) = false) t)
  | _, _ => ((400, WError "Customer ID and Product ID required"), t)
  end.

(** No two rows of [wishlists] are for the same customer and product. *)
Definition wish_unique (t : gmap string Wish.row) : Prop :=
  forall k1 k2 r1 r2,
    t !! k1 = Some r1 -> t !! k2 = Some r2 ->
    to_str (Wish.customer_id r1) = to_str (Wish.customer_id r2) ->
    to_str (Wish.product_id r1) = to_str (Wish.product_id r2) ->
    k1 = k2.

(** ** Marking a shopping-list entry as purchased *)

(** The validation steps of [POST] of
    [app/api/shopping-list/purchase/route.ts]: the message of the first one
    that fails, if any. *)
Definition purchase_validation (body : Purchase.t) : option string :=
  if negb (truthy (Purchase.shopping_list_id body))
     || negb (truthy (Purchase.actual_price body))
     || negb (truthy (Purchase.actual_location body))
     || negb (truthy (Purchase.quantity body))
     || negb (truthy (Purchase.purchase_date body))
  then Some "Missing required fields"
  else if negb (is_number (Purchase.actual_price body))
          || js_le (Purchase.actual_price body) nzero
  then Some "Price must be a positive number"
  else if negb (is_number (Purchase.quantity body))
          || js_le (Purchase.quantity body) nzero
  then Some "Quantity must be a positive number"
  else None.

(** [POST]: validate, then call the stored procedure
    [mark_shopping_item_purchased].  The procedure is not part of the
    sources; [rpc] is what it answers for the arguments it is given, [None]
    for an error. *)
Definition purchase_POST (rpc : Purchase.t -> option value)
  (user : option string) (body : Purchase.t) : nat * purchase_payload :=
  match user with
  | None => (401, PError "Unauthorized")
  | Some _ =>
    match purchase_validation body with
    | Some msg => (400, PError msg)
    | None =>
      match rpc body with
      | None => (500, PError "Failed to mark item as purchased")
      | Some data =>
          (200, PPurchased "Item marked as purchased and added to inventory"
                  data)
      end
    end
  end.

(** ** Numbers: facts used below *)

Lemma nlt_Fin (a b : Qc) : nlt (Fin a) (Fin b) = true <-> (a < b)%Qc.
Proof.
  unfold nlt; simpl. rewrite Qclt_alt.
  destruct (a ?= b)%Qc; split; congruence.
Qed.

Lemma ngt_Fin (a b : Qc) : ngt (Fin a) (Fin b) = true <-> (b < a)%Qc.
Proof. unfold ngt. apply nlt_Fin. Qed.

Lemma nle_Fin (a b : Qc) : nle (Fin a) (Fin b) = true <-> (a <= b)%Qc.
Proof.
  unfold nle; simpl. rewrite Qcle_alt.
  destruct (a ?= b)%Qc; split; congruence.
Qed.

Lemma nne_Fin (a b : Qc) : nne (Fin a) (Fin b) = true <-> a <> b.
Proof.
  unfold nne; simpl. rewrite Qceq_alt.
  destruct (a ?= b)%Qc; split; congruence.
Qed.

Lemma qc_is_zero_true (q : Qc) : qc_is_zero q = true <-> q = 0%Qc.
Proof.
  unfold qc_is_zero. rewrite Qceq_alt.
  destruct (q ?= 0)%Qc; split; congruence.
Qed.

Lemma nlt_irrefl (n : num) : nlt n n = false.
Proof.
  destruct n as [q| | |]; try reflexivity.
  destruct (nlt (Fin q) (Fin q)) eqn:E; [|reflexivity].
  apply nlt_Fin in E. exfalso. exact (Qclt_not_eq _ _ E eq_refl).
Qed.

Lemma nlt_false_Fin (a b : Qc) : nlt (Fin a) (Fin b) = false <-> (b <= a)%Qc.
Proof.
  split; intros H.
  - apply Qcnot_lt_le. intros L. apply nlt_Fin in L. congruence.
  - destruct (nlt (Fin a) (Fin b)) eqn:E; [|reflexivity].
    apply nlt_Fin in E. exfalso. exact (Qcle_not_lt _ _ H E).
Qed.

(** A number that is truthy and not below zero is above zero. *)
Lemma truthy_not_lt_gt (n : num) :
  truthy (VNum n) = true -> nlt n nzero = false -> ngt n nzero = true.
Proof.
  destruct n as [q| | |]; simpl; try (intros; reflexivity || discriminate).
  intros T L. apply ngt_Fin. apply nlt_false_Fin in L.
  apply negb_true_iff in T.
  destruct (Qcle_lt_or_eq _ _ L) as [G|G]; [exact G|].
  assert (Z0 : qc_is_zero q = true) by (apply qc_is_zero_true; congruence).
  congruence.
Qed.

Lemma ngt_truthy (n : num) : ngt n nzero = true -> truthy (VNum n) = true.
Proof.
  destruct n as [q| | |]; simpl; try (intros; reflexivity || discriminate).
  intros G. apply ngt_Fin in G. apply negb_true_iff.
  destruct (qc_is_zero q) eqn:E; [|reflexivity].
  apply qc_is_zero_true in E. subst q. exfalso.
  exact (Qclt_not_eq _ _ G eq_refl).
Qed.

Lemma ngt_not_lt (n : num) : ngt n nzero = true -> nlt n nzero = false.
Proof.
  destruct n as [q| | |]; simpl; try (intros; reflexivity || discriminate).
  intros G. apply ngt_Fin in G. apply nlt_false_Fin. apply Qclt_le_weak, G.
Qed.

Lemma ngt_not_le (n : num) : ngt n nzero = true -> nle n nzero = false.
Proof.
  destruct n as [q| | |]; simpl; try (intros; reflexivity || discriminate).
  intros G. apply ngt_Fin in G.
  destruct (nle (Fin q) nzero) eqn:E; [|reflexivity].
  apply nle_Fin in E. exfalso. exact (Qcle_not_lt _ _ E G).
Qed.

(** ** Tables: facts used below *)

Lemma select_item_of_user_Some d k uid it :
  select_item_of_user d k uid = Some it ->
  items d !! to_str k = Some it /\ Item.user_id it = uid.
Proof.
  unfold select_item_of_user. intros H.
  destruct (items d !! to_str k) as [it'|] eqn:E; [|discriminate].
  destruct (String.eqb (Item.user_id it') uid) eqn:U; [|discriminate].
  apply String.eqb_eq in U. split; congruence.
Qed.

Lemma select_sale_of_user_Some d k uid s :
  select_sale_of_user d k uid = Some s ->
  sales d !! k = Some s /\ Sale.user_id s = uid.
Proof.
  unfold select_sale_of_user. intros H.
  destruct (sales d !! k) as [s'|] eqn:E; [|discriminate].
  destruct (String.eqb (Sale.user_id s') uid) eqn:U; [|discriminate].
  apply String.eqb_eq in U. split; congruence.
Qed.

Lemma sales_update_item_quantities d k a b :
  sales (update_item_quantities d k a b) = sales d.
Proof. unfold update_item_quantities. destruct (items d !! k); reflexivity. Qed.


(** ** Validation of a new sale *)

Lemma post_validation_status body r :
  post_validation body = Some r -> exists msg, r = respond 400 (JError msg).
Proof.
  unfold post_validation. intros H.
  repeat match type of H with
         | (if ?c then _ else _) = _ => destruct c
         end; inversion H; eauto.
Qed.

Lemma post_validation_None body :
  post_validation body = None <->
  truthy (Body.item_id body) = true /\ truthy (Body.platform body) = true /\
  truthy (Body.sale_date body) = true /\
  (exists n, Body.sale_price body = VNum n /\ ngt n nzero = true) /\
  (exists m, Body.quantity_sold body = VNum m /\ ngt m nzero = true).
Proof.
  unfold post_validation, js_lt, js_le, is_number. split.
  - intros H.
    destruct (truthy (Body.item_id body)) eqn:T1; [|discriminate].
    destruct (truthy (Body.platform body)) eqn:T2; [|discriminate].
    destruct (truthy (Body.sale_price body)) eqn:T3; [|discriminate].
    destruct (truthy (Body.sale_date body)) eqn:T4; [|discriminate].
    destruct (truthy (Body.quantity_sold body)) eqn:T5; [|discriminate].
    simpl in H.
    destruct (Body.sale_price body) as [| | |n| |] eqn:P; try discriminate.
    destruct (Body.quantity_sold body) as [| | |m| |] eqn:Q;
      simpl in H; destruct (nlt n nzero) eqn:L; try discriminate.
    simpl in H. destruct (nle m nzero) eqn:L'; [discriminate|].
    repeat split; trivial.
    + exists n. split; [reflexivity|]. now apply truthy_not_lt_gt.
    + exists m. split; [reflexivity|].
      destruct m as [q| | |]; try reflexivity; try discriminate.
      apply ngt_Fin. apply Qcnot_le_lt. intros C. apply nle_Fin in C.
      unfold nzero in L'. congruence.
  - intros (T1 & T2 & T4 & (n & P & Gn) & (m & Q & Gm)).
    rewrite T1, T2, T4, P, Q.
    rewrite (ngt_truthy _ Gn), (ngt_truthy _ Gm). simpl.
    now rewrite (ngt_not_lt _ Gn), (ngt_not_le _ Gm).
Qed.

(** C5 (as amended).  With the other required fields present, the
    validation of [POST] lets a request through whenever its sale price is
    a number above zero and its quantity is a number above zero, whole or
    not; and the request is answered with status 400 and the database left
    alone whenever the sale price is not a number or is below zero, or the
    quantity is not a number or is at most zero. *)
Theorem recordSale_validation new_id uid body d :
  truthy (Body.item_id body) = true ->
  truthy (Body.platform body) = true ->
  truthy (Body.sale_date body) = true ->
  ((exists n m, Body.sale_price body = VNum n /\ ngt n nzero = true /\
                Body.quantity_sold body = VNum m /\ ngt m nzero = true) ->
   post_validation body = None) /\
  (is_number (Body.sale_price body) = false \/
   js_lt (Body.sale_price body) nzero = true \/
   is_number (Body.quantity_sold body) = false \/
   js_le (Body.quantity_sold body) nzero = true ->
   exists msg,
     POST new_id (Some uid) body d = (respond 400 (JError msg), d)).
Proof.
  intros T1 T2 T4. split.
  - intros (n & m & P & Gn & Q & Gm). apply post_validation_None.
    repeat split; eauto.
  - intros Bad. unfold POST.
    destruct (post_validation body) as [r|] eqn:V.
    + destruct (post_validation_status _ _ V) as [msg ->]. eauto.
    + exfalso. apply post_validation_None in V.
      destruct V as (_ & _ & _ & (n & P & Gn) & (m & Q & Gm)).
      unfold js_lt, js_le, is_number in Bad. rewrite P, Q in Bad. simpl in Bad.
      rewrite (ngt_not_lt _ Gn), (ngt_not_le _ Gm) in Bad.
      destruct Bad as [?|[?|[?|?]]]; discriminate.
Qed.

(** ** Stock check of a new sale *)

Lemma insert_sale_Some d new_id s it :
  items d !! to_str (Sale.item_id s) = Some it ->
  insert_sale d new_id s =
    Some (fst (sale_insert_trigger it s),
          {| items :=
               <[to_str (Sale.item_id s) := snd (sale_insert_trigger it s)]>
                 (items d);
             sales :=
               <[new_id := fst (sale_insert_trigger it s)]> (sales d) |}).
Proof. unfold insert_sale. intros ->. reflexivity. Qed.

(** C4.  A request that passes validation against an item of the caller:
    when the quantity asked for exceeds the quantity on hand, the answer is
    status 400 with the message naming the quantity on hand, and the
    database is unchanged; when it equals the quantity on hand, the sale is
    created and the item is left with nothing on hand. *)
Theorem recordSale_stock_check new_id uid body d item (m : num) (h : Qc) :
  post_validation body = None ->
  select_item_of_user d (Body.item_id body) uid = Some item ->
  Body.quantity_sold body = VNum m ->
  Item.quantity_on_hand item = VNum (Fin h) ->
  (nlt (Fin h) m = true ->
   POST new_id (Some uid) body d =
     (respond 400
        (JError (String.append "Only "
           (String.append (num_to_str (Fin h)) " units available"))), d)) /\
  (m = Fin h ->
   exists sale d' it',
     POST new_id (Some uid) body d = (respond 201 (JSale new_id sale), d') /\
     items d' !! to_str (Body.item_id body) = Some it' /\
     Item.quantity_on_hand it' = VNum (Fin 0%Qc)).
Proof.
  intros V I Q H. unfold POST. rewrite V, I, Q, H. unfold js_lt. simpl.
  split.
  - intros ->. reflexivity.
  - intros ->. rewrite nlt_irrefl.
    apply select_item_of_user_Some in I. destruct I as [I _].
    rewrite (insert_sale_Some _ _ _ item) by exact I.
    eexists _, _, _. split; [reflexivity|]. simpl. split.
    + apply lookup_insert_eq.
    + simpl. rewrite Q, H. unfold js_sub, nsub. simpl.
      do 2 f_equal. ring.
Qed.

(** ** Effect of a new sale *)

Lemma Qcmult_pos (a b : Qc) : (0 < a)%Qc -> (0 < b)%Qc -> (0 < a * b)%Qc.
Proof.
  intros A B. rewrite <- (Qcmult_0_l b). now apply Qcmult_lt_compat_r.
Qed.

Lemma to_number_fee (fee : option Qc) :
  to_number (js_or (fee_field fee) (VNum nzero)) = Fin (fee_or_zero fee).
Proof.
  destruct fee as [f|]; [|reflexivity]. unfold js_or. simpl.
  destruct (qc_is_zero f) eqn:E; [|reflexivity].
  apply qc_is_zero_true in E. now subst f.
Qed.

(** C2.  A request that passes validation and the stock check against an
    item of the caller is answered with status 201; the row stored for the
    new sale carries the gross profit, net profit and margin of section 3
    computed from the item's purchase price, and in the same step the item
    has the quantity sold taken from its quantity on hand and added to its
    quantity sold. *)
Theorem recordSale_effect new_id uid body d item
  (sp q pp h s : Qc) (pf sc oth : option Qc) :
  post_validation body = None ->
  select_item_of_user d (Body.item_id body) uid = Some item ->
  Body.sale_price body = VNum (Fin sp) ->
  Body.quantity_sold body = VNum (Fin q) ->
  Body.platform_fees body = fee_field pf ->
  Body.shipping_cost body = fee_field sc ->
  Body.other_fees body = fee_field oth ->
  Item.purchase_price item = VNum (Fin pp) ->
  Item.quantity_on_hand item = VNum (Fin h) ->
  Item.quantity_sold item = VNum (Fin s) ->
  (q <= h)%Qc ->
  let gross := spec_gross_profit sp pp q in
  let net := spec_net_profit gross pf sc oth in
  exists sale d' it',
    POST new_id (Some uid) body d = (respond 201 (JSale new_id sale), d') /\
    sales d' !! new_id = Some sale /\
    Sale.gross_profit sale = VNum (Fin gross) /\
    Sale.net_profit sale = VNum (Fin net) /\
    Sale.profit_margin sale = VNum (Fin (net / (sp * q) * qz 100)%Qc) /\
    items d' !! to_str (Body.item_id body) = Some it' /\
    Item.quantity_on_hand it' = VNum (Fin (h - q)%Qc) /\
    Item.quantity_sold it' = VNum (Fin (s + q)%Qc) /\
    Item.quantity_purchased it' = Item.quantity_purchased item /\
    Item.purchase_price it' = Item.purchase_price item.
Proof.
  intros V I P Q PF SC OF PP H S Le gross net.
  assert (Pos : (0 < sp * q)%Qc).
  { apply post_validation_None in V.
    destruct V as (_ & _ & _ & (n & Pn & Gn) & (m & Qm & Gm)).
    rewrite P in Pn. rewrite Q in Qm. inversion Pn; inversion Qm; subst.
    apply ngt_Fin in Gn. apply ngt_Fin in Gm. now apply Qcmult_pos. }
  assert (G : ngt (Fin (sp * q)%Qc) nzero = true) by now apply ngt_Fin.
  assert (NZ : qc_is_zero (sp * q)%Qc = false).
  { destruct (qc_is_zero (sp * q)%Qc) eqn:E; [|reflexivity].
    apply qc_is_zero_true in E. rewrite E in Pos.
    exfalso. exact (Qclt_not_eq _ _ Pos eq_refl). }
  assert (St : js_lt (Item.quantity_on_hand item)
                 (to_number (Body.quantity_sold body)) = false).
  { rewrite Q, H. now apply nlt_false_Fin. }
  apply select_item_of_user_Some in I. destruct I as [I U].
  unfold POST. rewrite V.
  unfold select_item_of_user. rewrite I, U, String.eqb_refl, St.
  rewrite (insert_sale_Some _ _ _ item) by exact I.
  eexists _, _, _. split; [reflexivity|].
  cbn [fst snd sales items sale_insert_trigger post_row
       Sale.gross_profit Sale.net_profit Sale.profit_margin Sale.sale_price
       Sale.quantity_sold Sale.platform_fees Sale.shipping_cost
       Sale.other_fees Sale.item_id Item.quantity_on_hand Item.quantity_sold
       Item.quantity_purchased Item.purchase_price].
  rewrite P, Q, PP, H, S, PF, SC, OF, !to_number_fee.
  unfold js_sub, js_mul, nsub.
  cbn [to_number nmul nadd nneg ndiv].
  rewrite G, NZ.
  split; [apply lookup_insert_eq|].
  split; [reflexivity|].
  split; [reflexivity|].
  split; [reflexivity|].
  split; [apply lookup_insert_eq|].
  repeat split; reflexivity.
Qed.

(** ** Updating a sale *)

(** [PATCH] once the sale and its item are found. *)
Lemma PATCH_found uid body d oldSale item :
  truthy (Body.id body) = true ->
  select_sale_of_user d (to_str (Body.id body)) uid = Some oldSale ->
  select_item d (Sale.item_id oldSale) = Some item ->
  PATCH (Some uid) body d =
    let quantityDiff :=
      js_sub (Body.quantity_sold body) (Sale.quantity_sold oldSale) in
    if ngt quantityDiff nzero
       && js_lt (Item.quantity_on_hand item) quantityDiff
    then (respond 400
            (JError
               (String.append "Not enough stock. You need "
               (String.append (num_to_str quantityDiff)
               (String.append " more, but only have "
               (String.append (to_str (Item.quantity_on_hand item))
                  "."))))), d)
    else
      let sale := patch_row oldSale (Item.purchase_price item) body in
      let d1 := {| items := items d;
                   sales := <[to_str (Body.id body) := sale]> (sales d) |} in
      (respond 200 (JSale (to_str (Body.id body)) sale),
       if nne quantityDiff nzero
       then update_item_quantities d1 (to_str (Sale.item_id oldSale))
              (VNum (nsub (to_number (Item.quantity_on_hand item))
                          quantityDiff))
              (js_add (Item.quantity_sold item) (VNum quantityDiff))
       else d1).
Proof. intros T S I. unfold PATCH. rewrite T, S, I. reflexivity. Qed.

(** When the update goes through, the stock check has passed and the row
    [patch_row] builds is the one stored. *)
Lemma PATCH_ok uid body d oldSale item :
  truthy (Body.id body) = true ->
  select_sale_of_user d (to_str (Body.id body)) uid = Some oldSale ->
  select_item d (Sale.item_id oldSale) = Some item ->
  status (fst (PATCH (Some uid) body d)) = 200 ->
  let sale := patch_row oldSale (Item.purchase_price item) body in
  ngt (js_sub (Body.quantity_sold body) (Sale.quantity_sold oldSale)) nzero
    && js_lt (Item.quantity_on_hand item)
         (js_sub (Body.quantity_sold body) (Sale.quantity_sold oldSale))
    = false /\
  fst (PATCH (Some uid) body d)
    = respond 200 (JSale (to_str (Body.id body)) sale) /\
  sales (snd (PATCH (Some uid) body d)) !! to_str (Body.id body) = Some sale.
Proof.
  intros T S I. rewrite (PATCH_found _ _ _ _ _ T S I). cbv zeta.
  destruct (ngt _ nzero && js_lt _ _) eqn:C; [discriminate|].
  intros _. split; [reflexivity|]. split; [reflexivity|].
  cbn [fst snd].
  destruct (nne _ nzero);
    [rewrite sales_update_item_quantities|]; apply lookup_insert_eq.
Qed.


(** C6.  In an update that goes through, the margin is guarded by
    [sale_price > 0] and by nothing else: a sale price of zero or less
    stores the margin [0] whatever the net profit is, and a sale price above
    zero stores [net_profit / (sale_price * quantity_sold) * 100], whatever
    the quantity is. *)
Theorem updateSale_margin_guard uid body d oldSale item (sp : Qc) :
  truthy (Body.id body) = true ->
  select_sale_of_user d (to_str (Body.id body)) uid = Some oldSale ->
  select_item d (Sale.item_id oldSale) = Some item ->
  Body.sale_price body = VNum (Fin sp) ->
  status (fst (PATCH (Some uid) body d)) = 200 ->
  exists sale net,
    sales (snd (PATCH (Some uid) body d)) !! to_str (Body.id body)
      = Some sale /\
    Sale.net_profit sale = VNum net /\
    ((sp <= 0)%Qc -> Sale.profit_margin sale = VNum nzero) /\
    ((0 < sp)%Qc ->
     Sale.profit_margin sale =
       VNum (nmul (ndiv net (js_mul (Body.sale_price body)
                                    (Body.quantity_sold body)))
                  nhundred)).
Proof.
  intros T S I P Ok.
  destruct (PATCH_ok _ _ _ _ _ T S I Ok) as (_ & _ & L).
  eexists _, _. split; [exact L|].
  cbn [patch_row Sale.net_profit Sale.profit_margin].
  split; [reflexivity|]. unfold patch_margin, js_gt. rewrite P.
  cbn [to_number]. split.
  - intros Le. replace (ngt (Fin sp) nzero) with false; [reflexivity|].
    symmetry. unfold ngt. now apply nlt_false_Fin.
  - intros Lt. replace (ngt (Fin sp) nzero) with true; [reflexivity|].
    symmetry. now apply ngt_Fin.
Qed.

Lemma update_item_quantities_lookup d k it a b :
  items d !! k = Some it ->
  items (update_item_quantities d k a b) !! k =
    Some {| Item.user_id := Item.user_id it;
            Item.purchase_price := Item.purchase_price it;
            Item.quantity_purchased := Item.quantity_purchased it;
            Item.quantity_on_hand := a;
            Item.quantity_sold := b |}.
Proof.
  intros H. unfold update_item_quantities. rewrite H. cbn [items].
  apply lookup_insert_eq.
Qed.


(** C7.  With [quantityDiff] the new quantity less the old one: an update
    that asks for more ([quantityDiff > 0]) than the item has on hand is
    answered with status 400 and the message naming the units needed and
    the units on hand, and nothing in the database changes; an update with
    [quantityDiff <= 0] goes through whatever is on hand; and an update that
    goes through with [quantityDiff] not zero leaves the item with
    [quantityDiff] less on hand and [quantityDiff] more sold. *)
Theorem updateSale_stock uid body d oldSale item (qn qo h s : Qc) :
  truthy (Body.id body) = true ->
  select_sale_of_user d (to_str (Body.id body)) uid = Some oldSale ->
  select_item d (Sale.item_id oldSale) = Some item ->
  Body.quantity_sold body = VNum (Fin qn) ->
  Sale.quantity_sold oldSale = VNum (Fin qo) ->
  Item.quantity_on_hand item = VNum (Fin h) ->
  Item.quantity_sold item = VNum (Fin s) ->
  let quantityDiff := (qn - qo)%Qc in
  ((0 < quantityDiff)%Qc -> (h < quantityDiff)%Qc ->
   PATCH (Some uid) body d =
     (respond 400
        (JError
           (String.append "Not enough stock. You need "
           (String.append (num_to_str (Fin quantityDiff))
           (String.append " more, but only have "
           (String.append (num_to_str (Fin h)) "."))))), d)) /\
  ((quantityDiff <= 0)%Qc -> status (fst (PATCH (Some uid) body d)) = 200) /\
  (status (fst (PATCH (Some uid) body d)) = 200 -> quantityDiff <> 0%Qc ->
   exists it',
     items (snd (PATCH (Some uid) body d)) !! to_str (Sale.item_id oldSale)
       = Some it' /\
     Item.quantity_on_hand it' = VNum (Fin (h - quantityDiff)%Qc) /\
     Item.quantity_sold it' = VNum (Fin (s + quantityDiff)%Qc) /\
     Item.quantity_purchased it' = Item.quantity_purchased item).
Proof.
  intros T S I Qn Qo H Sd quantityDiff.
  rewrite (PATCH_found _ _ _ _ _ T S I). cbv zeta.
  unfold js_sub, js_lt, nsub. rewrite Qn, Qo, H, Sd.
  cbn [to_number nneg nadd to_str].
  change (qn + - qo)%Qc with quantityDiff.
  split; [|split].
  - intros Pos Short.
    replace (ngt (Fin quantityDiff) nzero) with true
      by (symmetry; now apply ngt_Fin).
    replace (nlt (Fin h) (Fin quantityDiff)) with true
      by (symmetry; now apply nlt_Fin).
    reflexivity.
  - intros NonPos.
    replace (ngt (Fin quantityDiff) nzero) with false
      by (symmetry; unfold ngt; now apply nlt_false_Fin).
    reflexivity.
  - destruct (ngt (Fin quantityDiff) nzero && nlt (Fin h) (Fin quantityDiff));
      [discriminate|].
    intros _ NZ. cbn [fst snd].
    replace (nne (Fin quantityDiff) nzero) with true
      by (symmetry; now apply nne_Fin).
    eexists. split.
    + apply update_item_quantities_lookup. exact I.
    + cbn [Item.quantity_on_hand Item.quantity_sold Item.quantity_purchased].
      repeat split; reflexivity.
Qed.

(** C10.  [PATCH] validates neither the type nor the range of the fields
    it is given.  For a request naming a sale of the caller, whatever the
    other fields hold, the answer is status 200, or status 500 when the
    item of the sale is gone, or status 400 with the stock message when
    [quantityDiff > 0] exceeds the quantity on hand; the only other status
    400 of the handler, for a missing sale identifier, is excluded.  In
    particular, with [quantity_sold] absent [quantityDiff] is [NaN], the
    stock check lets the request through, and the row stored holds [NaN] as
    gross and net profit. *)
Theorem updateSale_no_validation uid body d oldSale :
  truthy (Body.id body) = true ->
  select_sale_of_user d (to_str (Body.id body)) uid = Some oldSale ->
  let quantityDiff :=
    js_sub (Body.quantity_sold body) (Sale.quantity_sold oldSale) in
  let r := fst (PATCH (Some uid) body d) in
  (status r = 200 \/
   (status r = 500 /\ select_item d (Sale.item_id oldSale) = None) \/
   (exists item,
      select_item d (Sale.item_id oldSale) = Some item /\
      ngt quantityDiff nzero = true /\
      js_lt (Item.quantity_on_hand item) quantityDiff = true /\
      r = respond 400
            (JError
               (String.append "Not enough stock. You need "
               (String.append (num_to_str quantityDiff)
               (String.append " more, but only have "
               (String.append (to_str (Item.quantity_on_hand item))
                  "."))))))) /\
  (Body.quantity_sold body = VUndefined ->
   forall item, select_item d (Sale.item_id oldSale) = Some item ->
     quantityDiff = NaN /\ status r = 200 /\
     exists sale,
       sales (snd (PATCH (Some uid) body d)) !! to_str (Body.id body)
         = Some sale /\
       Sale.gross_profit sale = VNum NaN /\
       Sale.net_profit sale = VNum NaN).
Proof.
  intros T S quantityDiff r. split.
  - destruct (select_item d (Sale.item_id oldSale)) as [item|] eqn:I.
    + subst r. rewrite (PATCH_found _ _ _ _ _ T S I). cbv zeta.
      fold quantityDiff.
      destruct (ngt quantityDiff nzero) eqn:G;
        [destruct (js_lt (Item.quantity_on_hand item) quantityDiff) eqn:L|];
        cbn [andb fst status respond]; [|now left..].
      right; right. exists item. repeat split; solve [reflexivity | assumption].
    + right; left. subst r. unfold PATCH. rewrite T, S, I. now split.
  - intros Q item I.
    assert (D : quantityDiff = NaN).
    { subst quantityDiff. unfold js_sub, nsub. rewrite Q. reflexivity. }
    assert (Ok : status r = 200).
    { subst r. rewrite (PATCH_found _ _ _ _ _ T S I). cbv zeta.
      fold quantityDiff. rewrite D. reflexivity. }
    split; [exact D|]. split; [exact Ok|].
    destruct (PATCH_ok _ _ _ _ _ T S I Ok) as (_ & _ & L).
    eexists. split; [exact L|].
    cbn [patch_row Sale.gross_profit Sale.net_profit].
    assert (Gr : patch_gross (Item.purchase_price item) body = NaN).
    { unfold patch_gross, js_mul. rewrite Q. cbn [to_number].
      destruct (to_number (Body.sale_price body)); reflexivity. }
    unfold patch_net. rewrite Gr. split; reflexivity.
Qed.

(** ** The quantity invariant *)





(** ** Deleting a sale *)

(** C8.  Deleting a sale that does not exist, or is not the caller's,
    changes nothing and is answered with the success message: no item is
    adjusted, and the deletion that is still sent removes no row.  Deleting
    a sale whose item exists adds the sale's quantity back to the item's
    quantity on hand, takes it from the item's quantity sold, and removes
    the sale. *)
Theorem deleteSale_effect uid k d :
  string_is_empty k = false ->
  (select_sale_of_user d k uid = None ->
   DELETE (Some uid) (Some k) d =
     (respond 200 (JMessage "Sale deleted successfully"),
      delete_sale_of_user d k uid) /\
   delete_sale_of_user d k uid = d) /\
  (forall sale item,
     select_sale_of_user d k uid = Some sale ->
     select_item d (Sale.item_id sale) = Some item ->
     exists d' it',
       DELETE (Some uid) (Some k) d =
         (respond 200 (JMessage "Sale deleted successfully"), d') /\
       sales d' !! k = None /\
       items d' !! to_str (Sale.item_id sale) = Some it' /\
       Item.quantity_on_hand it' =
         js_add (Item.quantity_on_hand item) (Sale.quantity_sold sale) /\
       Item.quantity_sold it' =
         VNum (js_sub (Item.quantity_sold item) (Sale.quantity_sold sale)) /\
       (forall h s q : Qc,
          Item.quantity_on_hand item = VNum (Fin h) ->
          Item.quantity_sold item = VNum (Fin s) ->
          Sale.quantity_sold sale = VNum (Fin q) ->
          Item.quantity_on_hand it' = VNum (Fin (h + q)%Qc) /\
          Item.quantity_sold it' = VNum (Fin (s - q)%Qc))).
Proof.
  intros NE. split.
  - intros S. unfold DELETE. rewrite NE, S. split; [reflexivity|].
    unfold delete_sale_of_user. now rewrite S.
  - intros sale item S I. unfold DELETE. rewrite NE, S, I.
    eexists _, _. split; [reflexivity|].
    unfold delete_sale_of_user, select_sale_of_user.
    rewrite sales_update_item_quantities.
    unfold select_sale_of_user in S.
    destruct (sales d !! k) as [s0|] eqn:L; [|discriminate].
    destruct (String.eqb (Sale.user_id s0) uid); [|discriminate].
    cbn [sales items]. split; [apply lookup_delete_eq|].
    split; [apply update_item_quantities_lookup; exact I|].
    cbn [Item.quantity_on_hand Item.quantity_sold].
    split; [reflexivity|]. split; [reflexivity|].
    intros h s q -> -> ->. split; reflexivity.
Qed.

(** ** Creating then deleting a sale *)



(** ** The sales handlers: what a request can and cannot change *)

Lemma db_eta (d : db) : {| items := items d; sales := sales d |} = d.
Proof. now destruct d. Qed.

(** An update answered with status 200 found the sale and its item and
    passed the stock check. *)
Lemma PATCH_200 uid body d :
  status (fst (PATCH (Some uid) body d)) = 200 ->
  truthy (Body.id body) = true /\
  exists oldSale item,
    select_sale_of_user d (to_str (Body.id body)) uid = Some oldSale /\
    select_item d (Sale.item_id oldSale) = Some item.
Proof.
  unfold PATCH.
  destruct (truthy (Body.id body)); cbn [negb]; [|discriminate].
  destruct (select_sale_of_user d (to_str (Body.id body)) uid)
    as [oldSale|]; [|discriminate].
  destruct (select_item d (Sale.item_id oldSale)) as [item|] eqn:I;
    [|discriminate].
  intros _. split; [reflexivity|]. eauto.
Qed.

Lemma DELETE_with_false user saleId d :
  DELETE_with false user saleId d = DELETE user saleId d.
Proof.
  unfold DELETE_with, DELETE. destruct user; [|reflexivity].
  destruct saleId as [k|]; [|reflexivity].
  now destruct (string_is_empty k).
Qed.

(** X1.  A creation or an update that is not answered with success (201,
    200) leaves the database as it was, and so does a deletion answered
    with status 400 or 401.  A deletion whose last request fails is
    answered with status 500 after the counters of the item have been
    restored: the item has its units back and the sale is still there. *)
Theorem sales_failure_effect new_id user body saleId d :
  (status (fst (POST new_id user body d)) <> 201 ->
   snd (POST new_id user body d) = d) /\
  (status (fst (PATCH user body d)) <> 200 ->
   snd (PATCH user body d) = d) /\
  (forall deleteError,
     status (fst (DELETE_with deleteError user saleId d)) <> 200 ->
     status (fst (DELETE_with deleteError user saleId d)) <> 500 ->
     snd (DELETE_with deleteError user saleId d) = d) /\
  (forall uid k sale item,
     user = Some uid ->
     saleId = Some k ->
     string_is_empty k = false ->
     select_sale_of_user d k uid = Some sale ->
     select_item d (Sale.item_id sale) = Some item ->
     DELETE_with true user saleId d =
       (respond 500 (JError "Failed to delete sale"),
        update_item_quantities d (to_str (Sale.item_id sale))
          (js_add (Item.quantity_on_hand item) (Sale.quantity_sold sale))
          (VNum (js_sub (Item.quantity_sold item)
                        (Sale.quantity_sold sale)))) /\
     sales (snd (DELETE_with true user saleId d)) !! k = Some sale).
Proof.
  split; [|split; [|split]].
  - unfold POST. destruct user as [uid|]; [|reflexivity].
    destruct (post_validation body); [reflexivity|].
    destruct (select_item_of_user d (Body.item_id body) uid) as [item|];
      [|reflexivity].
    destruct (js_lt _ _); [reflexivity|].
    destruct (insert_sale _ _ _) as [[sale d']|]; [|reflexivity].
    intros N. now contradiction N.
  - unfold PATCH. destruct user as [uid|]; [|reflexivity].
    destruct (truthy (Body.id body)); cbn [negb]; [|reflexivity].
    destruct (select_sale_of_user _ _ _) as [oldSale|]; [|reflexivity].
    destruct (select_item _ _) as [item|]; [|reflexivity].
    cbv zeta. destruct (ngt _ nzero && js_lt _ _); [reflexivity|].
    intros N. now contradiction N.
  - intros deleteError. unfold DELETE_with.
    destruct user as [uid|]; [|reflexivity].
    destruct saleId as [k|]; [|reflexivity].
    destruct (string_is_empty k); [reflexivity|]. cbv zeta.
    destruct deleteError; intros N200 N500;
      [now contradiction N500|now contradiction N200].
  - intros uid k sale item -> -> NE S I. unfold DELETE_with.
    rewrite NE, S, I. split; [reflexivity|]. cbn [snd].
    rewrite sales_update_item_quantities.
    now apply select_sale_of_user_Some in S.
Qed.

(** X2.  No request of a user changes or removes a sale of another user:
    a row of [sales] owned by somebody else is still there, unchanged,
    after an update or a deletion, and after a creation whose new
    identifier is not that row's. *)
Theorem sales_of_others_untouched uid k s d :
  sales d !! k = Some s ->
  Sale.user_id s <> uid ->
  (forall body, sales (snd (PATCH (Some uid) body d)) !! k = Some s) /\
  (forall saleId, sales (snd (DELETE (Some uid) saleId d)) !! k = Some s) /\
  (forall new_id body, new_id <> k ->
     sales (snd (POST new_id (Some uid) body d)) !! k = Some s).
Proof.
  intros L Other. split; [|split].
  - intros body. unfold PATCH.
    destruct (truthy (Body.id body)); cbn [negb snd]; [|exact L].
    destruct (select_sale_of_user d (to_str (Body.id body)) uid)
      as [oldSale|] eqn:S; [|exact L].
    destruct (select_item _ _) as [item|]; [|exact L].
    cbv zeta. destruct (ngt _ nzero && js_lt _ _); [exact L|].
    cbn [snd].
    assert (N : to_str (Body.id body) <> k).
    { intros E. subst k. apply select_sale_of_user_Some in S.
      destruct S as [S U]. rewrite L in S. inversion S; subst.
      now apply Other. }
    destruct (nne _ nzero);
      [rewrite sales_update_item_quantities|]; cbn [sales];
      now rewrite lookup_insert_ne.
  - intros saleId. unfold DELETE.
    destruct saleId as [sid|]; [|exact L].
    destruct (string_is_empty sid); [exact L|]. cbn [snd].
    unfold delete_sale_of_user.
    assert (Same : forall d1, sales d1 = sales d ->
              select_sale_of_user d1 sid uid = select_sale_of_user d sid uid).
    { intros d1 E. unfold select_sale_of_user. now rewrite E. }
    set (d1 := match select_sale_of_user d sid uid with
               | Some sale => _ | None => d end).
    assert (E : sales d1 = sales d).
    { subst d1. destruct (select_sale_of_user d sid uid) as [sale|];
        [|reflexivity].
      destruct (select_item d (Sale.item_id sale));
        [apply sales_update_item_quantities|reflexivity]. }
    rewrite (Same _ E).
    destruct (select_sale_of_user d sid uid) as [sale|] eqn:S;
      [|now rewrite E].
    cbn [sales]. rewrite E.
    assert (N : sid <> k).
    { intros E'. subst k. apply select_sale_of_user_Some in S.
      destruct S as [S U]. rewrite L in S. inversion S; subst.
      now apply Other. }
    now rewrite lookup_delete_ne.
  - intros new_id body N. unfold POST.
    destruct (post_validation body); [exact L|].
    destruct (select_item_of_user d (Body.item_id body) uid) as [item|];
      [|exact L].
    destruct (js_lt _ _); [exact L|].
    unfold insert_sale.
    destruct (items d !! to_str (Sale.item_id (post_row uid body)));
      [|exact L].
    destruct (sale_insert_trigger _ _) as [s' it']. cbn [snd sales].
    now rewrite lookup_insert_ne.
Qed.

(** X3.  An update that goes through changes neither the owner of the sale
    nor the item it is a sale of, whatever [item_id] the request carries. *)
Theorem updateSale_keeps_owner_and_item uid body d :
  status (fst (PATCH (Some uid) body d)) = 200 ->
  exists oldSale sale,
    sales d !! to_str (Body.id body) = Some oldSale /\
    sales (snd (PATCH (Some uid) body d)) !! to_str (Body.id body)
      = Some sale /\
    Sale.user_id sale = uid /\
    Sale.user_id oldSale = uid /\
    Sale.item_id sale = Sale.item_id oldSale /\
    Sale.is_synced_from_api sale = Sale.is_synced_from_api oldSale.
Proof.
  intros Ok. destruct (PATCH_200 _ _ _ Ok) as (T & oldSale & item & S & I).
  destruct (PATCH_ok _ _ _ _ _ T S I Ok) as (_ & _ & L).
  apply select_sale_of_user_Some in S. destruct S as [S U].
  eexists _, _. split; [exact S|]. split; [exact L|].
  cbn [patch_row Sale.user_id Sale.item_id Sale.is_synced_from_api].
  repeat split; assumption || reflexivity.
Qed.

(** [PATCH] once the stock check has passed. *)
Lemma PATCH_200_eq uid body d oldSale item :
  truthy (Body.id body) = true ->
  select_sale_of_user d (to_str (Body.id body)) uid = Some oldSale ->
  select_item d (Sale.item_id oldSale) = Some item ->
  status (fst (PATCH (Some uid) body d)) = 200 ->
  PATCH (Some uid) body d =
    let quantityDiff :=
      js_sub (Body.quantity_sold body) (Sale.quantity_sold oldSale) in
    let sale := patch_row oldSale (Item.purchase_price item) body in
    let d1 := {| items := items d;
                 sales := <[to_str (Body.id body) := sale]> (sales d) |} in
    (respond 200 (JSale (to_str (Body.id body)) sale),
     if nne quantityDiff nzero
     then update_item_quantities d1 (to_str (Sale.item_id oldSale))
            (VNum (nsub (to_number (Item.quantity_on_hand item))
                        quantityDiff))
            (js_add (Item.quantity_sold item) (VNum quantityDiff))
     else d1).
Proof.
  intros T S I. rewrite (PATCH_found _ _ _ _ _ T S I). cbv zeta.
  destruct (ngt _ nzero && js_lt _ _); [discriminate|reflexivity].
Qed.

Lemma nne_self (q : Qc) : nne (Fin (q + - q)%Qc) nzero = false.
Proof.
  destruct (nne (Fin (q + - q)%Qc) nzero) eqn:E; [|reflexivity].
  apply nne_Fin in E. exfalso. apply E. ring.
Qed.

Lemma ngt_self (q : Qc) : ngt (Fin (q + - q)%Qc) nzero = false.
Proof.
  unfold ngt. apply nlt_false_Fin. replace (q + - q)%Qc with 0%Qc by ring.
  apply Qcle_refl.
Qed.

(** X4.  An update that keeps the quantity of the sale goes through
    whatever is on hand and changes no item: only the row of the sale is
    rewritten. *)
Theorem updateSale_same_quantity uid body d oldSale item (q : Qc) :
  truthy (Body.id body) = true ->
  select_sale_of_user d (to_str (Body.id body)) uid = Some oldSale ->
  select_item d (Sale.item_id oldSale) = Some item ->
  Body.quantity_sold body = VNum (Fin q) ->
  Sale.quantity_sold oldSale = VNum (Fin q) ->
  status (fst (PATCH (Some uid) body d)) = 200 /\
  items (snd (PATCH (Some uid) body d)) = items d /\
  sales (snd (PATCH (Some uid) body d)) =
    <[to_str (Body.id body) :=
        patch_row oldSale (Item.purchase_price item) body]> (sales d).
Proof.
  intros T S I Q Qo. rewrite (PATCH_found _ _ _ _ _ T S I). cbv zeta.
  unfold js_sub, nsub. rewrite Q, Qo. cbn [to_number nneg nadd].
  rewrite ngt_self, nne_self. cbn [andb fst snd status respond items sales].
  repeat split; reflexivity.
Qed.

(** X5.  Sending the same update a second time changes nothing more: the
    answer is the same and the database stays as the first update left
    it. *)
Theorem updateSale_idempotent uid body d (q : Qc) :
  Body.quantity_sold body = VNum (Fin q) ->
  status (fst (PATCH (Some uid) body d)) = 200 ->
  PATCH (Some uid) body (snd (PATCH (Some uid) body d))
    = PATCH (Some uid) body d.
Proof.
  intros Q Ok. destruct (PATCH_200 _ _ _ Ok) as (T & oldSale & item & S & I).
  rewrite (PATCH_200_eq _ _ _ _ _ T S I Ok). cbv zeta.
  set (k := to_str (Body.id body)).
  set (sale := patch_row oldSale (Item.purchase_price item) body).
  set (d1 := {| items := items d; sales := <[k := sale]> (sales d) |}).
  set (d2 := if nne _ nzero then _ else d1).
  cbn [snd].
  assert (Sd : sales d2 = <[k := sale]> (sales d)).
  { subst d2. destruct (nne _ nzero);
      [rewrite sales_update_item_quantities|]; reflexivity. }
  apply select_sale_of_user_Some in S. destruct S as [S U].
  assert (S2 : select_sale_of_user d2 k uid = Some sale).
  { unfold select_sale_of_user. rewrite Sd, lookup_insert_eq.
    subst sale. cbn [patch_row Sale.user_id]. rewrite U.
    now rewrite String.eqb_refl. }
  assert (exists item2,
            select_item d2 (Sale.item_id sale) = Some item2 /\
            Item.purchase_price item2 = Item.purchase_price item)
    as (item2 & I2 & P2).
  { subst sale. cbn [patch_row Sale.item_id]. unfold select_item in *.
    subst d2. destruct (nne _ nzero).
    - rewrite (update_item_quantities_lookup d1 _ item) by exact I.
      eexists. split; reflexivity.
    - exists item. split; [exact I|reflexivity]. }
  rewrite (PATCH_found _ _ _ _ _ T S2 I2). cbv zeta.
  assert (D : js_sub (Body.quantity_sold body) (Sale.quantity_sold sale)
              = Fin (q + - q)%Qc).
  { subst sale. cbn [patch_row Sale.quantity_sold]. unfold js_sub, nsub.
    rewrite Q. reflexivity. }
  rewrite D, ngt_self, nne_self. cbn [andb]. rewrite P2.
  assert (R : patch_row sale (Item.purchase_price item) body = sale)
    by reflexivity.
  rewrite R. fold k. f_equal. rewrite Sd, insert_insert_eq, <- Sd.
  apply db_eta.
Qed.

(** X6.  Deleting a sale a second time is answered with the same success
    message and changes nothing: the first deletion has removed the sale,
    and the second one finds nothing to restore. *)
Theorem deleteSale_idempotent uid k d :
  string_is_empty k = false ->
  DELETE (Some uid) (Some k) (snd (DELETE (Some uid) (Some k) d))
    = (respond 200 (JMessage "Sale deleted successfully"),
       snd (DELETE (Some uid) (Some k) d)).
Proof.
  intros NE.
  assert (Gone : select_sale_of_user (snd (DELETE (Some uid) (Some k) d))
                   k uid = None).
  { unfold DELETE. rewrite NE. cbn [snd].
    set (d1 := match select_sale_of_user d k uid with
               | Some sale => _ | None => d end).
    unfold delete_sale_of_user.
    destruct (select_sale_of_user d1 k uid) as [s0|] eqn:S2; [|exact S2].
    unfold select_sale_of_user. cbn [sales]. now rewrite lookup_delete_eq. }
  set (d' := snd (DELETE (Some uid) (Some k) d)) in *.
  unfold DELETE. rewrite NE, Gone. unfold delete_sale_of_user.
  now rewrite Gone.
Qed.


(** X8.  An update that goes through never leaves a negative quantity on
    hand: an item with nothing below zero on hand before the update has
    nothing below zero on hand after it. *)
Theorem updateSale_on_hand_nonneg uid body d oldSale item (qn qo h : Qc) :
  truthy (Body.id body) = true ->
  select_sale_of_user d (to_str (Body.id body)) uid = Some oldSale ->
  select_item d (Sale.item_id oldSale) = Some item ->
  Body.quantity_sold body = VNum (Fin qn) ->
  Sale.quantity_sold oldSale = VNum (Fin qo) ->
  Item.quantity_on_hand item = VNum (Fin h) ->
  (0 <= h)%Qc ->
  status (fst (PATCH (Some uid) body d)) = 200 ->
  exists it' (h' : Qc),
    items (snd (PATCH (Some uid) body d)) !! to_str (Sale.item_id oldSale)
      = Some it' /\
    Item.quantity_on_hand it' = VNum (Fin h') /\
    (0 <= h')%Qc.
Proof.
  intros T S I Qn Qo H Pos Ok.
  destruct (PATCH_ok _ _ _ _ _ T S I Ok) as (Chk & _ & _).
  rewrite (PATCH_200_eq _ _ _ _ _ T S I Ok). cbv zeta. cbn [snd].
  revert Chk. unfold js_sub, js_lt, nsub. rewrite Qn, Qo, H.
  cbn [to_number nneg nadd]. intros Chk.
  destruct (nne (Fin (qn + - qo)%Qc) nzero).
  - rewrite (update_item_quantities_lookup _ _ item) by exact I.
    eexists _, _. split; [reflexivity|].
    cbn [Item.quantity_on_hand]. split; [reflexivity|].
    apply (proj1 (Qcle_minus_iff (qn + - qo)%Qc h)).
    destruct (ngt (Fin (qn + - qo)%Qc) nzero) eqn:G.
    + cbn [andb] in Chk. now apply nlt_false_Fin in Chk.
    + unfold ngt in G. apply nlt_false_Fin in G.
      now apply (Qcle_trans _ 0%Qc).
  - exists item, h. cbn [items]. unfold select_item in I. now repeat split.
Qed.

(** X9.  The margin guard of the update does not cover a quantity of zero:
    with a sale price above zero and a quantity of zero, an update that
    goes through stores as margin the result of a division by zero
    ([Infinity], [-Infinity] or [NaN]), not a finite number. *)
Theorem updateSale_zero_quantity_margin uid body d oldSale item (sp : Qc) :
  truthy (Body.id body) = true ->
  select_sale_of_user d (to_str (Body.id body)) uid = Some oldSale ->
  select_item d (Sale.item_id oldSale) = Some item ->
  Body.sale_price body = VNum (Fin sp) ->
  (0 < sp)%Qc ->
  Body.quantity_sold body = VNum (Fin 0%Qc) ->
  status (fst (PATCH (Some uid) body d)) = 200 ->
  exists sale,
    sales (snd (PATCH (Some uid) body d)) !! to_str (Body.id body)
      = Some sale /\
    (Sale.profit_margin sale = VNum PInf \/
     Sale.profit_margin sale = VNum NInf \/
     Sale.profit_margin sale = VNum NaN).
Proof.
  intros T S I P Pos Q Ok.
  destruct (PATCH_ok _ _ _ _ _ T S I Ok) as (_ & _ & L).
  eexists. split; [exact L|]. cbn [patch_row Sale.profit_margin].
  unfold patch_margin, js_gt, js_mul. rewrite P, Q. cbn [to_number nmul].
  replace (ngt (Fin sp) nzero) with true by (symmetry; now apply ngt_Fin).
  replace (sp * 0)%Qc with 0%Qc by ring.
  destruct (patch_net (Item.purchase_price item) body) as [n| | |];
    cbn [ndiv].
  - change (qc_is_zero 0%Qc) with true. cbn iota.
    destruct (n ?= 0)%Qc; cbn [inf_of]; auto.
  - auto.
  - auto.
  - auto.
Qed.

(** X10.  A sale whose item row is gone can be deleted but not updated:
    the deletion removes the sale and touches no item, the update is
    answered with status 500 and changes nothing. *)
Theorem sale_of_missing_item uid k d sale :
  string_is_empty k = false ->
  select_sale_of_user d k uid = Some sale ->
  select_item d (Sale.item_id sale) = None ->
  DELETE (Some uid) (Some k) d =
    (respond 200 (JMessage "Sale deleted successfully"),
     {| items := items d; sales := delete k (sales d) |}) /\
  (forall body, Body.id body = VStr k ->
     PATCH (Some uid) body d =
       (respond 500 (JError "Internal server error"), d)).
Proof.
  intros NE S I. split.
  - unfold DELETE. rewrite NE, S, I. unfold delete_sale_of_user.
    now rewrite S.
  - intros body Id. unfold PATCH. rewrite Id. cbn [truthy to_str].
    rewrite NE. cbn [negb]. now rewrite S, I.
Qed.

(** ** The wishlist *)

Lemma wish_matches_true c p r :
  wish_matches c p r = true <->
  to_str (Wish.customer_id r) = c /\ to_str (Wish.product_id r) = p.
Proof.
  unfold wish_matches. rewrite andb_true_iff, !String.eqb_eq. reflexivity.
Qed.

Lemma select_wishes_lookup t c p k r :
  select_wishes t c p !! k = Some r <->
  t !! k = Some r /\ wish_matches c p r = true.
Proof. unfold select_wishes. apply map_lookup_filter_Some. Qed.

Lemma single_singleton {A : Type} (k : string) (x : A) :
  single ({[ k := x ]} : gmap string A) = Some (k, x).
Proof. unfold single. now rewrite map_to_list_singleton. Qed.

Lemma single_Some_lookup {A : Type} (m : gmap string A) k x :
  single m = Some (k, x) -> m !! k = Some x.
Proof.
  unfold single. destruct (map_to_list m) as [|kr [|kr' l]] eqn:E;
    try discriminate.
  intros [= ->]. apply elem_of_map_to_list. rewrite E. apply list_elem_of_here.
Qed.

(** In a table without duplicates, [.single()] finds no row only when no
    row matches. *)
Lemma single_None_unique t c p :
  wish_unique t ->
  single (select_wishes t c p) = None ->
  select_wishes t c p = ∅.
Proof.
  intros U. unfold single.
  destruct (map_to_list (select_wishes t c p)) as [|[k1 r1] [|[k2 r2] l]] eqn:E.
  - intros _. now apply map_to_list_empty_iff.
  - discriminate.
  - intros _. exfalso.
    pose proof (NoDup_fst_map_to_list (select_wishes t c p)) as ND.
    assert (L1 : select_wishes t c p !! k1 = Some r1).
    { apply elem_of_map_to_list. rewrite E. apply list_elem_of_here. }
    assert (L2 : select_wishes t c p !! k2 = Some r2).
    { apply elem_of_map_to_list. rewrite E.
      apply list_elem_of_further, list_elem_of_here. }
    apply select_wishes_lookup in L1. destruct L1 as [L1 M1].
    apply select_wishes_lookup in L2. destruct L2 as [L2 M2].
    apply wish_matches_true in M1. destruct M1 as [C1 P1].
    apply wish_matches_true in M2. destruct M2 as [C2 P2].
    assert (k1 = k2) by (apply (U k1 k2 r1 r2); congruence).
    subst k2. rewrite E in ND. cbn in ND. inversion ND as [|? ? Hn _]; subst.
    apply Hn. apply list_elem_of_here.
Qed.

Lemma select_wishes_insert t c p k r :
  wish_matches c p r = true ->
  select_wishes (<[k := r]> t) c p = <[k := r]> (select_wishes t c p).
Proof.
  intros M. unfold select_wishes. now apply map_filter_insert_True.
Qed.

Lemma wish_matches_self customerId productId :
  wish_matches (to_str customerId) (to_str productId)
    {| Wish.customer_id := customerId; Wish.product_id := productId |} = true.
Proof. apply wish_matches_true. now split. Qed.

(** What [wishlist_POST] does to a table without duplicates. *)
Lemma wishlist_POST_cases new_id customerId productId t :
  truthy customerId = true ->
  truthy productId = true ->
  wish_unique t ->
  (exists k r,
     single (select_wishes t (to_str customerId) (to_str productId))
       = Some (k, r) /\
     wishlist_POST new_id customerId productId t
       = ((200, WMessageId "Already in wishlist" k), t)) \/
  (select_wishes t (to_str customerId) (to_str productId) = ∅ /\
   wishlist_POST new_id customerId productId t
     = ((201, WMessageId "Added to wishlist" new_id),
        <[new_id := {| Wish.customer_id := customerId;
                       Wish.product_id := productId |}]> t)).
Proof.
  intros Tc Tp U. unfold wishlist_POST. rewrite Tc, Tp. cbn [negb orb].
  destruct (single (select_wishes t (to_str customerId) (to_str productId)))
    as [[k r]|] eqn:S.
  - left. exists k, r. now split.
  - right. split; [now apply single_None_unique|reflexivity].
Qed.

(** X11.  A product added to the wishlist of a customer is found there:
    after [POST], whether it added the row or found it, [GET] for the same
    customer and product answers [inWishlist: true]. *)
Theorem wishlist_add_then_check new_id (c p : string) t :
  string_is_empty c = false ->
  string_is_empty p = false ->
  wish_unique t ->
  wishlist_GET (Some c) (Some p)
    (snd (wishlist_POST new_id (VStr c) (VStr p) t))
  = (200, WInWishlist true).
Proof.
  intros Nc Np U. unfold wishlist_GET. rewrite Nc, Np.
  destruct (wishlist_POST_cases new_id (VStr c) (VStr p) t)
    as [(k & r & S & ->)|[E ->]];
    try (cbn [truthy]; rewrite ?Nc, ?Np; reflexivity); try exact U;
    cbn [snd to_str] in *.
  - now rewrite S.
  - rewrite select_wishes_insert by apply (wish_matches_self (VStr c) (VStr p)).
    rewrite E, insert_empty, single_singleton. reflexivity.
Qed.

(** X12.  [POST] keeps the wishlist free of duplicates: when no two rows
    are for the same customer and product before the request, no two are
    after it. *)
Theorem wishlist_POST_keeps_unique new_id customerId productId t :
  wish_unique t ->
  wish_unique (snd (wishlist_POST new_id customerId productId t)).
Proof.
  intros U.
  destruct (truthy customerId) eqn:Tc;
    [|unfold wishlist_POST; rewrite Tc; exact U].
  destruct (truthy productId) eqn:Tp;
    [|unfold wishlist_POST; rewrite Tc, Tp; exact U].
  destruct (wishlist_POST_cases new_id customerId productId t Tc Tp U)
    as [(k & r & S & ->)|[E ->]]; [exact U|]. cbn [snd].
  assert (Free : forall k r, t !! k = Some r ->
            to_str (Wish.customer_id r) = to_str customerId ->
            to_str (Wish.product_id r) = to_str productId -> False).
  { intros k r L C P.
    assert (select_wishes t (to_str customerId) (to_str productId) !! k
            = Some r) as In.
    { apply select_wishes_lookup. split; [exact L|].
      now apply wish_matches_true. }
    rewrite E in In. now rewrite lookup_empty in In. }
  intros k1 k2 r1 r2 L1 L2 C P.
  destruct (decide (new_id = k1)) as [<-|N1];
    destruct (decide (new_id = k2)) as [<-|N2]; [reflexivity| | |].
  - rewrite lookup_insert_eq in L1. rewrite lookup_insert_ne in L2 by exact N2.
    inversion L1; subst r1. cbn in C, P. exfalso.
    now apply (Free k2 r2 L2).
  - rewrite lookup_insert_eq in L2. rewrite lookup_insert_ne in L1 by exact N1.
    inversion L2; subst r2. cbn in C, P. exfalso.
    now apply (Free k1 r1 L1).
  - rewrite lookup_insert_ne in L1 by exact N1.
    rewrite lookup_insert_ne in L2 by exact N2.
    now apply (U k1 k2 r1 r2).
Qed.

(** X13.  Adding a product twice adds it once: the second [POST] for the
    same customer and product answers "Already in wishlist" with the
    identifier the first one answered, and leaves the table as the first
    one left it. *)
Theorem wishlist_POST_idempotent new_id customerId productId t :
  truthy customerId = true ->
  truthy productId = true ->
  wish_unique t ->
  exists id,
    (fst (wishlist_POST new_id customerId productId t)
       = (201, WMessageId "Added to wishlist" id) \/
     fst (wishlist_POST new_id customerId productId t)
       = (200, WMessageId "Already in wishlist" id)) /\
    forall new_id',
      wishlist_POST new_id' customerId productId
        (snd (wishlist_POST new_id customerId productId t))
      = ((200, WMessageId "Already in wishlist" id),
         snd (wishlist_POST new_id customerId productId t)).
Proof.
  intros Tc Tp U.
  destruct (wishlist_POST_cases new_id customerId productId t Tc Tp U)
    as [(k & r & S & ->)|[E ->]]; cbn [fst snd].
  - exists k. split; [now right|]. intros new_id'.
    unfold wishlist_POST. rewrite Tc, Tp. cbn [negb orb]. now rewrite S.
  - exists new_id. split; [now left|]. intros new_id'.
    unfold wishlist_POST. rewrite Tc, Tp. cbn [negb orb].
    rewrite select_wishes_insert by apply wish_matches_self.
    rewrite E, insert_empty, single_singleton. reflexivity.
Qed.

(** X14.  [DELETE] removes every row of the customer and product and no
    other row: afterwards [GET] for them answers [inWishlist: false], and
    a row for another customer or product is still there. *)
Theorem wishlist_DELETE_effect (c p : string) t :
  string_is_empty c = false ->
  string_is_empty p = false ->
  fst (wishlist_DELETE (Some c) (Some p) t)
    = (200, WMessage "Removed from wishlist") /\
  wishlist_GET (Some c) (Some p) (snd (wishlist_DELETE (Some c) (Some p) t))
    = (200, WInWishlist false) /\
  (forall k r, t !! k = Some r ->
     snd (wishlist_DELETE (Some c) (Some p) t) !! k
       = if wish_matches c p r then None else Some r).
Proof.
  intros Nc Np. unfold wishlist_DELETE, wishlist_GET. rewrite Nc, Np.
  cbn [orb fst snd]. split; [reflexivity|].
  set (t' := filter (fun kr => wish_matches c p (snd kr) = false) t).
  assert (E : select_wishes t' c p = ∅).
  { apply map_empty. intros k.
    destruct (select_wishes t' c p !! k) as [r|] eqn:L; [|reflexivity].
    apply select_wishes_lookup in L. destruct L as [L M].
    apply map_lookup_filter_Some in L. destruct L as [_ M']. cbn in M'.
    congruence. }
  split.
  - rewrite E. unfold single. now rewrite map_to_list_empty.
  - intros k r L. subst t'. destruct (wish_matches c p r) eqn:M.
    + apply map_lookup_filter_None. right. intros r' L' M'. cbn in M'.
      congruence.
    + apply map_lookup_filter_Some. now split.
Qed.

(** X15.  Adding a product that was not in the wishlist and removing it
    again gives back the table as it was. *)
Theorem wishlist_add_then_remove new_id (c p : string) t :
  string_is_empty c = false ->
  string_is_empty p = false ->
  wish_unique t ->
  t !! new_id = None ->
  wishlist_GET (Some c) (Some p) t = (200, WInWishlist false) ->
  snd (wishlist_DELETE (Some c) (Some p)
         (snd (wishlist_POST new_id (VStr c) (VStr p) t)))
  = t.
Proof.
  intros Nc Np U Fresh Absent.
  assert (E : select_wishes t c p = ∅).
  { apply single_None_unique; [exact U|].
    revert Absent. unfold wishlist_GET. rewrite Nc, Np.
    destruct (single (select_wishes t c p)); [discriminate|reflexivity]. }
  unfold wishlist_POST. cbn [truthy to_str]. rewrite Nc, Np. cbn [negb orb].
  rewrite E. unfold single at 1. rewrite map_to_list_empty. cbn [snd].
  unfold wishlist_DELETE. rewrite Nc, Np. cbn [orb snd].
  rewrite map_filter_insert_False.
  - rewrite delete_id by exact Fresh.
    apply map_filter_id. intros k r L. cbn.
    destruct (wish_matches c p r) eqn:M; [|reflexivity].
    assert (select_wishes t c p !! k = Some r) as In
      by (apply select_wishes_lookup; now split).
    rewrite E in In. now rewrite lookup_empty in In.
  - cbn. pose proof (wish_matches_self (VStr c) (VStr p)) as M.
    cbn [to_str] in M. rewrite M. discriminate.
Qed.

(** ** Validation, exactly *)

(** X16.  The validation of a new sale lets a request through exactly when
    [item_id], [platform] and [sale_date] are truthy, [sale_price] is a
    number above zero and [quantity_sold] is a number above zero.  A sale
    price of exactly zero is answered "Missing required fields". *)
Theorem recordSale_validation_exact body :
  (post_validation body = None <->
   truthy (Body.item_id body) = true /\ truthy (Body.platform body) = true /\
   truthy (Body.sale_date body) = true /\
   (exists n, Body.sale_price body = VNum n /\ ngt n nzero = true) /\
   (exists m, Body.quantity_sold body = VNum m /\ ngt m nzero = true)) /\
  (Body.sale_price body = VNum (Fin 0%Qc) ->
   post_validation body
     = Some (respond 400 (JError "Missing required fields"))).
Proof.
  split; [apply post_validation_None|].
  intros P. unfold post_validation. rewrite P.
  change (truthy (VNum (Fin 0%Qc))) with false. cbn [negb].
  now rewrite !orb_true_r.
Qed.

Lemma purchase_validation_None body :
  purchase_validation body = None <->
  truthy (Purchase.shopping_list_id body) = true /\
  truthy (Purchase.actual_location body) = true /\
  truthy (Purchase.purchase_date body) = true /\
  (exists n, Purchase.actual_price body = VNum n /\ ngt n nzero = true) /\
  (exists m, Purchase.quantity body = VNum m /\ ngt m nzero = true).
Proof.
  unfold purchase_validation, js_le, is_number. split.
  - intros H.
    destruct (truthy (Purchase.shopping_list_id body)) eqn:T1; [|discriminate].
    destruct (truthy (Purchase.actual_price body)) eqn:T2; [|discriminate].
    destruct (truthy (Purchase.actual_location body)) eqn:T3; [|discriminate].
    destruct (truthy (Purchase.quantity body)) eqn:T4; [|discriminate].
    destruct (truthy (Purchase.purchase_date body)) eqn:T5; [|discriminate].
    cbn [negb orb] in H.
    destruct (Purchase.actual_price body) as [| | |n| |] eqn:P;
      try discriminate.
    destruct (Purchase.quantity body) as [| | |m| |] eqn:Q;
      cbn [typeof to_number negb orb] in H;
      destruct (nle n nzero) eqn:Ln; try discriminate.
    destruct (nle m nzero) eqn:Lm; [discriminate|].
    assert (Above : forall x, truthy (VNum x) = true ->
              nle x nzero = false -> ngt x nzero = true).
    { intros [q| | |]; cbn [truthy]; intros Tx Lx;
        try reflexivity; try discriminate.
      apply ngt_Fin. apply Qcnot_le_lt. intros C. apply nle_Fin in C.
      unfold nzero in Lx. congruence. }
    repeat split; eauto.
  - intros (T1 & T3 & T5 & (n & P & Gn) & (m & Q & Gm)).
    rewrite T1, T3, T5, P, Q.
    rewrite (ngt_truthy _ Gn), (ngt_truthy _ Gm).
    cbn [negb orb typeof to_number].
    now rewrite (ngt_not_le _ Gn), (ngt_not_le _ Gm).
Qed.

(** X17.  Marking a shopping-list entry as purchased: the request reaches
    the stored procedure exactly when the entry, the location and the date
    are truthy and the price and the quantity are numbers above zero; any
    other request is answered with status 400 whatever the procedure would
    have answered. *)
Theorem purchase_validation_exact body :
  let valid :=
    truthy (Purchase.shopping_list_id body) = true /\
    truthy (Purchase.actual_location body) = true /\
    truthy (Purchase.purchase_date body) = true /\
    (exists n, Purchase.actual_price body = VNum n /\ ngt n nzero = true) /\
    (exists m, Purchase.quantity body = VNum m /\ ngt m nzero = true) in
  (valid ->
   forall rpc uid,
     purchase_POST rpc (Some uid) body =
       match rpc body with
       | Some data =>
           (200, PPurchased "Item marked as purchased and added to inventory"
                   data)
       | None => (500, PError "Failed to mark item as purchased")
       end) /\
  (~ valid ->
   exists msg, forall rpc uid,
     purchase_POST rpc (Some uid) body = (400, PError msg)).
Proof.
  intros valid. split.
  - intros V rpc uid. apply purchase_validation_None in V.
    unfold purchase_POST. rewrite V. now destruct (rpc body).
  - intros NV. destruct (purchase_validation body) as [msg|] eqn:E.
    + exists msg. intros rpc uid. unfold purchase_POST. now rewrite E.
    + exfalso. apply NV. now apply purchase_validation_None.
Qed.

(** X21.  A sale cannot be recorded against an item of another user, nor
    against an item that does not exist: a request that passes validation
    is then answered with status 404 "Item not found" and the database is
    unchanged. *)
Theorem recordSale_foreign_item new_id uid body d :
  post_validation body = None ->
  (forall it, items d !! to_str (Body.item_id body) = Some it ->
     Item.user_id it <> uid) ->
  POST new_id (Some uid) body d = (respond 404 (JError "Item not found"), d).
Proof.
  intros V Foreign. unfold POST. rewrite V. unfold select_item_of_user.
  destruct (items d !! to_str (Body.item_id body)) as [it|] eqn:L;
    [|reflexivity].
  destruct (String.eqb (Item.user_id it) uid) eqn:E; [|reflexivity].
  apply String.eqb_eq in E. now destruct (Foreign it eq_refl).
Qed.

End Handlers.

(** ** The handlers on the scenario of the specification *)

(** C5, as first stated, fails: a sale price of [0] is turned away as a
    missing field, and a quantity of [3/2] passes validation. *)
Lemma recordSale_validation_counterexample :
  fst (POST example_str_to_num example_num_to_str
          "s2" (Some "u1")
         (example_body_with (VNum (Fin (qz 0))) (VNum (Fin (qz 2))))
         example_db)
    = respond 400 (JError "Missing required fields") /\
  post_validation example_str_to_num
    (example_body_with (VNum (Fin (qz 25))) (VNum (Fin (Q2Qc (3 # 2)))))
    = None.
Proof. split; run. Qed.

(** Validation on the scenario: the request of the specification passes,
    and the same request with a text for a price is turned away. *)
Lemma recordSale_validation_witness :
  post_validation example_str_to_num example_body = None /\
  exists msg,
    POST example_str_to_num example_num_to_str
    "s1" (Some "u1")
      (example_body_with (VStr "25") (VNum (Fin (qz 2)))) example_db
    = (respond 400 (JError msg), example_db).
Proof.
  split.
  - apply (recordSale_validation example_str_to_num example_num_to_str
             "s1" "u1" example_body example_db); try run.
    exists (Fin (qz 25)), (Fin (qz 2)). repeat split; run.
  - apply (recordSale_validation example_str_to_num example_num_to_str
             "s1" "u1" (example_body_with (VStr "25") (VNum (Fin (qz 2))))
             example_db); try run.
    left. run.
Defined.

(** The stock check on the scenario: six units asked of five, and five
    asked of five. *)
Lemma recordSale_stock_check_witness :
  POST example_str_to_num example_num_to_str
    "s1" (Some "u1")
    (example_body_with (VNum (Fin (qz 25))) (VNum (Fin (qz 6)))) example_db
  = (respond 400 (JError "Only 5 units available"), example_db) /\
  exists sale d' it',
    POST example_str_to_num example_num_to_str
    "s1" (Some "u1")
      (example_body_with (VNum (Fin (qz 25))) (VNum (Fin (qz 5)))) example_db
    = (respond 201 (JSale "s1" sale), d') /\
    items d' !! "i1" = Some it' /\
    Item.quantity_on_hand it' = VNum (Fin 0%Qc).
Proof.
  split.
  - apply (recordSale_stock_check example_str_to_num example_num_to_str
             "s1" "u1"
             (example_body_with (VNum (Fin (qz 25))) (VNum (Fin (qz 6))))
             example_db example_item (Fin (qz 6)) (qz 5)); run.
  - apply (recordSale_stock_check example_str_to_num example_num_to_str
             "s1" "u1"
             (example_body_with (VNum (Fin (qz 25))) (VNum (Fin (qz 5))))
             example_db example_item (Fin (qz 5)) (qz 5)); run.
Defined.

(** The first scenario of the specification: gross profit 30, net profit
    25, and the item left with three units on hand and two sold. *)
Lemma recordSale_effect_witness :
  exists sale d' it',
    POST example_str_to_num example_num_to_str
    "s1" (Some "u1") example_body example_db
      = (respond 201 (JSale "s1" sale), d') /\
    sales d' !! "s1" = Some sale /\
    Sale.gross_profit sale
      = VNum (Fin (spec_gross_profit (qz 25) (qz 10) (qz 2))) /\
    Sale.net_profit sale
      = VNum (Fin (spec_net_profit
                     (spec_gross_profit (qz 25) (qz 10) (qz 2))
                     (Some (qz 3)) (Some (qz 2)) None)) /\
    Sale.profit_margin sale
      = VNum (Fin (spec_net_profit
                     (spec_gross_profit (qz 25) (qz 10) (qz 2))
                     (Some (qz 3)) (Some (qz 2)) None
                   / (qz 25 * qz 2) * qz 100)%Qc) /\
    items d' !! "i1" = Some it' /\
    Item.quantity_on_hand it' = VNum (Fin (qz 5 - qz 2)%Qc) /\
    Item.quantity_sold it' = VNum (Fin (qz 0 + qz 2)%Qc) /\
    Item.quantity_purchased it' = VNum (Fin (qz 5)) /\
    Item.purchase_price it' = VNum (Fin (qz 10)).
Proof.
  apply (recordSale_effect example_str_to_num example_num_to_str
           "s1" "u1" example_body example_db example_item
           (qz 25) (qz 2) (qz 10) (qz 5) (qz 0)
           (Some (qz 3)) (Some (qz 2)) None); try run.
  qc_order.
Defined.



(** A sale price of zero: the net profit is not zero and the margin stored
    is. *)
Lemma updateSale_margin_guard_witness :
  exists sale net,
    sales (snd (PATCH example_str_to_num example_num_to_str
          (Some "u1")
                  (example_update (VNum (Fin (qz 0))) (VNum (Fin (qz 2))))
                  example_db_sold)) !! "s1" = Some sale /\
    Sale.net_profit sale = VNum net /\
    net <> nzero /\
    Sale.profit_margin sale = VNum nzero.
Proof.
  destruct (updateSale_margin_guard example_str_to_num example_num_to_str
              "u1" (example_update (VNum (Fin (qz 0))) (VNum (Fin (qz 2))))
              example_db_sold example_sale example_item_sold (qz 0)
              eq_refl eq_refl eq_refl eq_refl)
    as (sale & net & L & N & Zero & _); [run|].
  exists sale, net. split; [exact L|]. split; [exact N|].
  split; [|apply Zero; qc_order].
  assert (E : sales (snd (PATCH example_str_to_num example_num_to_str
          (Some "u1")
                (example_update (VNum (Fin (qz 0))) (VNum (Fin (qz 2))))
                example_db_sold)) !! "s1"
              = Some (patch_row example_str_to_num example_sale
                        (VNum (Fin (qz 10)))
                        (example_update (VNum (Fin (qz 0)))
                           (VNum (Fin (qz 2)))))) by run.
  assert (E' : Some sale = Some (patch_row example_str_to_num example_sale
                        (VNum (Fin (qz 10)))
                        (example_update (VNum (Fin (qz 0)))
                           (VNum (Fin (qz 2))))))
    by (rewrite <- L; exact E).
  inversion E'; subst sale. inversion N; subst net.
  intros C. vm_compute in C. discriminate C.
Defined.

(** Sale ["s1"] of two units, three units on hand: a replacement asking for
    six units is refused and changes nothing; one asking for one unit goes
    through and leaves four units on hand and one sold. *)
Lemma updateSale_stock_witness :
  PATCH example_str_to_num example_num_to_str
    (Some "u1")
    (example_update (VNum (Fin (qz 25))) (VNum (Fin (qz 6)))) example_db_sold
  = (respond 400
       (JError "Not enough stock. You need 4 more, but only have 3."),
     example_db_sold) /\
  exists it',
    items (snd (PATCH example_str_to_num example_num_to_str
          (Some "u1")
                  (example_update (VNum (Fin (qz 25))) (VNum (Fin (qz 1))))
                  example_db_sold)) !! "i1" = Some it' /\
    Item.quantity_on_hand it' = VNum (Fin (qz 3 - (qz 1 - qz 2))%Qc) /\
    Item.quantity_sold it' = VNum (Fin (qz 2 + (qz 1 - qz 2))%Qc) /\
    Item.quantity_purchased it' = VNum (Fin (qz 5)).
Proof.
  split.
  - apply (updateSale_stock example_str_to_num example_num_to_str "u1"
             (example_update (VNum (Fin (qz 25))) (VNum (Fin (qz 6))))
             example_db_sold example_sale example_item_sold
             (qz 6) (qz 2) (qz 3) (qz 2)); try run; qc_order.
  - apply (updateSale_stock example_str_to_num example_num_to_str "u1"
             (example_update (VNum (Fin (qz 25))) (VNum (Fin (qz 1))))
             example_db_sold example_sale example_item_sold
             (qz 1) (qz 2) (qz 3) (qz 2)); try run.
    intros C. vm_compute in C. discriminate C.
Defined.

(** Sale ["s1"] replaced by a request without [quantity_sold]. *)
Lemma updateSale_no_validation_witness :
  js_sub example_str_to_num VUndefined (Sale.quantity_sold example_sale)
    = NaN /\
  status (fst (PATCH example_str_to_num example_num_to_str
          (Some "u1")
                 (example_update (VNum (Fin (qz 25))) VUndefined)
                 example_db_sold)) = 200 /\
  exists sale,
    sales (snd (PATCH example_str_to_num example_num_to_str
          (Some "u1")
                  (example_update (VNum (Fin (qz 25))) VUndefined)
                  example_db_sold)) !! "s1" = Some sale /\
    Sale.gross_profit sale = VNum NaN /\
    Sale.net_profit sale = VNum NaN.
Proof.
  destruct (updateSale_no_validation example_str_to_num example_num_to_str
              "u1" (example_update (VNum (Fin (qz 25))) VUndefined)
              example_db_sold example_sale eq_refl eq_refl)
    as [_ Absent].
  exact (Absent eq_refl example_item_sold eq_refl).
Defined.





(** Deleting a sale that is not there, and deleting sale ["s1"]: the last
    scenario of the specification, on the sale of two units. *)
Lemma deleteSale_effect_witness :
  DELETE example_str_to_num example_num_to_str
    (Some "u1") (Some "s7") example_db_sold
    = (respond 200 (JMessage "Sale deleted successfully"), example_db_sold) /\
  exists d' it',
    DELETE example_str_to_num example_num_to_str
    (Some "u1") (Some "s1") example_db_sold
      = (respond 200 (JMessage "Sale deleted successfully"), d') /\
    sales d' !! "s1" = None /\
    items d' !! "i1" = Some it' /\
    Item.quantity_on_hand it' = VNum (Fin (qz 3 + qz 2)%Qc) /\
    Item.quantity_sold it' = VNum (Fin (qz 2 - qz 2)%Qc).
Proof.
  split.
  - destruct (deleteSale_effect example_str_to_num example_num_to_str
                "u1" "s7" example_db_sold eq_refl) as [Missing _].
    destruct (Missing eq_refl) as [R Same].
    rewrite R. now rewrite Same.
  - destruct (deleteSale_effect example_str_to_num example_num_to_str
                "u1" "s1" example_db_sold eq_refl) as [_ Found].
    destruct (Found example_sale example_item_sold eq_refl eq_refl)
      as (d' & it' & R & Gone & L & _ & _ & Typed).
    exists d', it'. split; [exact R|]. split; [exact Gone|].
    split; [exact L|].
    exact (Typed (qz 3) (qz 2) (qz 2) eq_refl eq_refl eq_refl).
Defined.


(** The second scenario of the specification as the handler runs it: sale
    ["s1"] of two units raised to four with three units on hand needs two
    more units, and goes through. *)
Example updateSale_four_with_three_on_hand :
  status (fst (PATCH example_str_to_num example_num_to_str
          (Some "u1")
                 (example_update (VNum (Fin (qz 25))) (VNum (Fin (qz 4))))
                 example_db_sold)) = 200.
Proof. run. Qed.

(** ** The further properties on the scenario *)

(** A creation without a user, a refused update and a deletion without an
    identifier change nothing; a deletion of sale ["s1"] whose last request
    fails gives item ["i1"] its two units back and keeps the sale. *)
Lemma sales_failure_effect_witness :
  snd (POST example_str_to_num example_num_to_str
         "s2" None example_body example_db_sold) = example_db_sold /\
  snd (PATCH example_str_to_num example_num_to_str (Some "u1")
         (example_update (VNum (Fin (qz 25))) (VNum (Fin (qz 6))))
         example_db_sold) = example_db_sold /\
  snd (DELETE_with example_str_to_num example_num_to_str true
         (Some "u1") None example_db_sold) = example_db_sold /\
  DELETE_with example_str_to_num example_num_to_str true
    (Some "u1") (Some "s1") example_db_sold =
    (respond 500 (JError "Failed to delete sale"),
     update_item_quantities example_db_sold "i1"
       (js_add example_str_to_num example_num_to_str
          (VNum (Fin (qz 3))) (VNum (Fin (qz 2))))
       (VNum (js_sub example_str_to_num
                (VNum (Fin (qz 2))) (VNum (Fin (qz 2)))))) /\
  sales (snd (DELETE_with example_str_to_num example_num_to_str true
                (Some "u1") (Some "s1") example_db_sold)) !! "s1"
    = Some example_sale.
Proof.
  destruct (sales_failure_effect example_str_to_num example_num_to_str
              "s2" None example_body None example_db_sold)
    as (A & _ & _ & _).
  destruct (sales_failure_effect example_str_to_num example_num_to_str
              "s2" (Some "u1")
              (example_update (VNum (Fin (qz 25))) (VNum (Fin (qz 6))))
              None example_db_sold)
    as (_ & B & C & _).
  destruct (sales_failure_effect example_str_to_num example_num_to_str
              "s2" (Some "u1") example_body (Some "s1") example_db_sold)
    as (_ & _ & _ & D).
  split; [apply A; vm_compute; discriminate|].
  split; [apply B; vm_compute; discriminate|].
  split; [apply (C true); vm_compute; discriminate|].
  exact (D "u1" "s1" example_sale example_item_sold
           eq_refl eq_refl eq_refl eq_refl eq_refl).
Defined.

(** User ["u2"] cannot touch sale ["s1"] of user ["u1"]. *)
Lemma sales_of_others_untouched_witness :
  sales (snd (PATCH example_str_to_num example_num_to_str (Some "u2")
                (example_update (VNum (Fin (qz 1))) (VNum (Fin (qz 1))))
                example_db_sold)) !! "s1" = Some example_sale /\
  sales (snd (DELETE example_str_to_num example_num_to_str
                (Some "u2") (Some "s1") example_db_sold)) !! "s1"
    = Some example_sale.
Proof.
  destruct (sales_of_others_untouched example_str_to_num example_num_to_str
              "u2" "s1" example_sale example_db_sold eq_refl)
    as (A & B & _).
  - intros C. vm_compute in C. discriminate C.
  - split; [apply A|apply B].
Defined.

(** An update of sale ["s1"] that names item ["i2"] leaves it a sale of
    item ["i1"]. *)
Lemma updateSale_keeps_owner_and_item_witness :
  exists oldSale sale,
    sales example_db_sold !! "s1" = Some oldSale /\
    sales (snd (PATCH example_str_to_num example_num_to_str (Some "u1")
                  (example_update_no_fees (VNum (Fin (qz 25)))
                     (VNum (Fin (qz 1))))
                  example_db_sold)) !! "s1" = Some sale /\
    Sale.user_id sale = "u1" /\
    Sale.user_id oldSale = "u1" /\
    Sale.item_id sale = Sale.item_id oldSale /\
    Sale.is_synced_from_api sale = Sale.is_synced_from_api oldSale.
Proof.
  apply (updateSale_keeps_owner_and_item example_str_to_num
           example_num_to_str "u1"
           (example_update_no_fees (VNum (Fin (qz 25))) (VNum (Fin (qz 1))))
           example_db_sold).
  run.
Defined.

(** Sale ["s1"] repriced at 30 with its two units kept. *)
Lemma updateSale_same_quantity_witness :
  status (fst (PATCH example_str_to_num example_num_to_str (Some "u1")
                 (example_update (VNum (Fin (qz 30))) (VNum (Fin (qz 2))))
                 example_db_sold)) = 200 /\
  items (snd (PATCH example_str_to_num example_num_to_str (Some "u1")
                (example_update (VNum (Fin (qz 30))) (VNum (Fin (qz 2))))
                example_db_sold)) = items example_db_sold.
Proof.
  destruct (updateSale_same_quantity example_str_to_num example_num_to_str
              "u1" (example_update (VNum (Fin (qz 30))) (VNum (Fin (qz 2))))
              example_db_sold example_sale example_item_sold (qz 2)
              eq_refl eq_refl eq_refl eq_refl eq_refl)
    as (A & B & _).
  now split.
Defined.

(** Sale ["s1"] cut to one unit, twice. *)
Lemma updateSale_idempotent_witness :
  PATCH example_str_to_num example_num_to_str (Some "u1")
    (example_update (VNum (Fin (qz 25))) (VNum (Fin (qz 1))))
    (snd (PATCH example_str_to_num example_num_to_str (Some "u1")
            (example_update (VNum (Fin (qz 25))) (VNum (Fin (qz 1))))
            example_db_sold))
  = PATCH example_str_to_num example_num_to_str (Some "u1")
      (example_update (VNum (Fin (qz 25))) (VNum (Fin (qz 1))))
      example_db_sold.
Proof.
  apply (updateSale_idempotent example_str_to_num example_num_to_str "u1"
           (example_update (VNum (Fin (qz 25))) (VNum (Fin (qz 1))))
           example_db_sold (qz 1)); run.
Defined.

(** Sale ["s1"] deleted twice. *)
Lemma deleteSale_idempotent_witness :
  DELETE example_str_to_num example_num_to_str (Some "u1") (Some "s1")
    (snd (DELETE example_str_to_num example_num_to_str
            (Some "u1") (Some "s1") example_db_sold))
  = (respond 200 (JMessage "Sale deleted successfully"),
     snd (DELETE example_str_to_num example_num_to_str
            (Some "u1") (Some "s1") example_db_sold)).
Proof.
  apply (deleteSale_idempotent example_str_to_num example_num_to_str
           "u1" "s1" example_db_sold).
  run.
Defined.


(** Sale ["s1"] raised to five units with three on hand: nothing is left on
    hand, and nothing below zero. *)
Lemma updateSale_on_hand_nonneg_witness :
  exists it' (h' : Qc),
    items (snd (PATCH example_str_to_num example_num_to_str (Some "u1")
                  (example_update (VNum (Fin (qz 25))) (VNum (Fin (qz 5))))
                  example_db_sold)) !! "i1" = Some it' /\
    Item.quantity_on_hand it' = VNum (Fin h') /\
    (0 <= h')%Qc.
Proof.
  apply (updateSale_on_hand_nonneg example_str_to_num example_num_to_str
           "u1" (example_update (VNum (Fin (qz 25))) (VNum (Fin (qz 5))))
           example_db_sold example_sale example_item_sold
           (qz 5) (qz 2) (qz 3)); try run.
  qc_order.
Defined.

(** Sale ["s1"] replaced by a sale of no unit at 25. *)
Lemma updateSale_zero_quantity_margin_witness :
  exists sale,
    sales (snd (PATCH example_str_to_num example_num_to_str (Some "u1")
                  (example_update (VNum (Fin (qz 25))) (VNum (Fin 0%Qc)))
                  example_db_sold)) !! "s1" = Some sale /\
    (Sale.profit_margin sale = VNum PInf \/
     Sale.profit_margin sale = VNum NInf \/
     Sale.profit_margin sale = VNum NaN).
Proof.
  apply (updateSale_zero_quantity_margin example_str_to_num
           example_num_to_str "u1"
           (example_update (VNum (Fin (qz 25))) (VNum (Fin 0%Qc)))
           example_db_sold example_sale example_item_sold (qz 25));
    run.
Defined.

(** Sale ["s1"] once its item row is gone. *)
Lemma sale_of_missing_item_witness :
  DELETE example_str_to_num example_num_to_str
    (Some "u1") (Some "s1") example_db_orphan
  = (respond 200 (JMessage "Sale deleted successfully"),
     {| items := items example_db_orphan;
        sales := delete "s1" (sales example_db_orphan) |}) /\
  PATCH example_str_to_num example_num_to_str (Some "u1")
    (example_update (VNum (Fin (qz 25))) (VNum (Fin (qz 1))))
    example_db_orphan
  = (respond 500 (JError "Internal server error"), example_db_orphan).
Proof.
  destruct (sale_of_missing_item example_str_to_num example_num_to_str
              "u1" "s1" example_db_orphan example_sale
              eq_refl eq_refl eq_refl) as [A B].
  split; [exact A|]. now apply B.
Defined.

Lemma example_wishlist_unique : wish_unique example_num_to_str example_wishlist.
Proof.
  intros k1 k2 r1 r2 L1 L2 _ _. unfold example_wishlist in *.
  apply lookup_singleton_Some in L1. apply lookup_singleton_Some in L2.
  destruct L1 as [<- _]. now destruct L2 as [<- _].
Qed.

(** Product ["p2"] added to the wishlist of customer ["c1"], then looked
    for. *)
Lemma wishlist_add_then_check_witness :
  wishlist_GET example_num_to_str (Some "c1") (Some "p2")
    (snd (wishlist_POST example_num_to_str "w2" (VStr "c1") (VStr "p2")
            example_wishlist))
  = (200, WInWishlist true).
Proof.
  apply (wishlist_add_then_check example_num_to_str "w2" "c1" "p2"
           example_wishlist eq_refl eq_refl example_wishlist_unique).
Defined.

Lemma wishlist_POST_keeps_unique_witness :
  wish_unique example_num_to_str
    (snd (wishlist_POST example_num_to_str "w2" (VStr "c1") (VStr "p2")
            example_wishlist)).
Proof.
  apply (wishlist_POST_keeps_unique example_num_to_str "w2"
           (VStr "c1") (VStr "p2") example_wishlist example_wishlist_unique).
Defined.

(** Product ["p1"], already in the wishlist as row ["w1"], added again. *)
Lemma wishlist_POST_idempotent_witness :
  exists id,
    (fst (wishlist_POST example_num_to_str "w2" (VStr "c1") (VStr "p1")
            example_wishlist)
       = (201, WMessageId "Added to wishlist" id) \/
     fst (wishlist_POST example_num_to_str "w2" (VStr "c1") (VStr "p1")
            example_wishlist)
       = (200, WMessageId "Already in wishlist" id)) /\
    forall new_id',
      wishlist_POST example_num_to_str new_id' (VStr "c1") (VStr "p1")
        (snd (wishlist_POST example_num_to_str "w2" (VStr "c1") (VStr "p1")
                example_wishlist))
      = ((200, WMessageId "Already in wishlist" id),
         snd (wishlist_POST example_num_to_str "w2" (VStr "c1") (VStr "p1")
                example_wishlist)).
Proof.
  apply (wishlist_POST_idempotent example_num_to_str "w2"
           (VStr "c1") (VStr "p1") example_wishlist eq_refl eq_refl
           example_wishlist_unique).
Defined.

(** Product ["p1"] removed from the wishlist of customer ["c1"]. *)
Lemma wishlist_DELETE_effect_witness :
  fst (wishlist_DELETE example_num_to_str (Some "c1") (Some "p1")
         example_wishlist)
    = (200, WMessage "Removed from wishlist") /\
  wishlist_GET example_num_to_str (Some "c1") (Some "p1")
    (snd (wishlist_DELETE example_num_to_str (Some "c1") (Some "p1")
            example_wishlist))
    = (200, WInWishlist false).
Proof.
  destruct (wishlist_DELETE_effect example_num_to_str "c1" "p1"
              example_wishlist eq_refl eq_refl) as (A & B & _).
  now split.
Defined.

(** Product ["p2"] added as row ["w2"] and removed again. *)
Lemma wishlist_add_then_remove_witness :
  snd (wishlist_DELETE example_num_to_str (Some "c1") (Some "p2")
         (snd (wishlist_POST example_num_to_str "w2" (VStr "c1") (VStr "p2")
                 example_wishlist)))
  = example_wishlist.
Proof.
  apply (wishlist_add_then_remove example_num_to_str "w2" "c1" "p2"
           example_wishlist eq_refl eq_refl example_wishlist_unique);
    run.
Defined.

(** A new sale at a price of zero. *)
Lemma recordSale_validation_exact_witness :
  post_validation example_str_to_num
    (example_body_with (VNum (Fin 0%Qc)) (VNum (Fin (qz 2))))
  = Some (respond 400 (JError "Missing required fields")).
Proof.
  destruct (recordSale_validation_exact example_str_to_num
              (example_body_with (VNum (Fin 0%Qc)) (VNum (Fin (qz 2)))))
    as [_ Zero].
  now apply Zero.
Defined.

(** A purchase at 12 reaches the procedure; one whose price is the text
    ["12"] does not. *)
Lemma purchase_validation_exact_witness :
  (forall rpc uid,
     purchase_POST example_str_to_num rpc (Some uid)
       (example_purchase (VNum (Fin (qz 12)))) =
       match rpc (example_purchase (VNum (Fin (qz 12)))) with
       | Some data =>
           (200, PPurchased "Item marked as purchased and added to inventory"
                   data)
       | None => (500, PError "Failed to mark item as purchased")
       end) /\
  (exists msg, forall rpc uid,
     purchase_POST example_str_to_num rpc (Some uid)
       (example_purchase (VStr "12")) = (400, PError msg)).
Proof.
  split.
  - apply (purchase_validation_exact example_str_to_num
             (example_purchase (VNum (Fin (qz 12))))).
    repeat split; try reflexivity.
    + exists (Fin (qz 12)). split; run.
    + exists (Fin (qz 3)). split; run.
  - apply (purchase_validation_exact example_str_to_num
             (example_purchase (VStr "12"))).
    intros (_ & _ & _ & (n & P & _) & _). discriminate P.
Defined.

(** User ["u2"] asks for a sale of item ["i1"] of user ["u1"]. *)
Lemma recordSale_foreign_item_witness :
  POST example_str_to_num example_num_to_str
    "s2" (Some "u2") example_body example_db
  = (respond 404 (JError "Item not found"), example_db).
Proof.
  apply (recordSale_foreign_item example_str_to_num example_num_to_str
           "s2" "u2" example_body example_db); [run|].
  intros it L. unfold example_db, example_body in L. cbn in L.
  apply lookup_singleton_Some in L. destruct L as [_ <-].
  intros C. vm_compute in C. discriminate C.
Defined.
